(** * CPP_Tools: the file handle and the interactive directory browser

    A shallow embedding of [filesystem::file_t] and of the directory
    browser [get_file_path], in the three forms the repository has them:

    - [Tools]    : src/tools.hpp, [tools::filesystem::file_t] and
                   [tools::filesystem::monitoring];
    - [Part000]  : the later tools.hpp (second file of unnamed part 000),
                   whose constructors all start from [file_t()], whose
                   [print_filesystem] clears [dirs_], and which adds
                   [write_file], [set_filename] and the menu entry "d";
    - [Part001]  : console_tools.hpp (unnamed part 001, and again the first
                   file of part 000), [filesystem_monitoring] with a map
                   local to the loop body.

    [std::string] is [string] (a sequence of bytes), [std::size_t] is [N],
    [int] is [Z] (the counter of a listing stays below 2^31 on every
    directory a machine can hold; past it [num++] has no defined meaning),
    [std::map<std::string, std::pair<bool, std::string>>] is
    [gmap string (bool * string)].  [fs::path] is its generic-format string
    on a POSIX system.  The file system and [std::cin] are the environment:
    every query is answered by an oracle, every write is logged.

    Besides them: [get_correct_int] over the characters of [std::cin], and
    the timer [time::monitoring], its clock readings being counts of
    nanoseconds. *)

From Stdlib Require Import ZArith NArith String Ascii List Bool Lia.
From stdpp Require Import base option list strings pretty gmap fin_maps.

Local Open Scope string_scope.

(** ** [std::filesystem::path], generic format, POSIX *)

Module Path.

Definition path : Type := string.

Definition is_slash (c : ascii) : bool := Ascii.eqb c "/"%char.

(** Directory part (through the last separator) and final segment. *)
Fixpoint split_filename (p : path) : path * string :=
  match p with
  | EmptyString => (EmptyString, EmptyString)
  | String c r =>
      let '(d, f) := split_filename r in
      if is_slash c then (String c d, f)
      else match d with
           | EmptyString => (EmptyString, String c f)
           | String _ _ => (String c d, f)
           end
  end.

(** [path::remove_filename] *)
Definition remove_filename (p : path) : path := fst (split_filename p).

(** [path::filename] *)
Definition filename (p : path) : string := snd (split_filename p).

(** [path::has_filename] *)
Definition has_filename (p : path) : bool :=
  match filename p with EmptyString => false | String _ _ => true end.

(** [path::is_absolute]: on POSIX, the path has a root directory. *)
Definition is_absolute (p : path) : bool :=
  match p with String c _ => is_slash c | EmptyString => false end.

(** [operator/] and [operator/=] *)
Definition append (p q : path) : path :=
  if is_absolute q then q
  else if has_filename p then p +:+ "/" +:+ q
  else p +:+ q.

(** [path::has_relative_path]: something follows the root directory. *)
Fixpoint has_relative_path (p : path) : bool :=
  match p with
  | EmptyString => false
  | String c r => if is_slash c then has_relative_path r else true
  end.

Fixpoint strip_trailing_slashes (p : path) : path :=
  match p with
  | EmptyString => EmptyString
  | String c r =>
      match strip_trailing_slashes r with
      | EmptyString => if is_slash c then EmptyString else String c EmptyString
      | String _ _ as r' => String c r'
      end
  end.

(** [path::parent_path]: the path without its last component; a path
    without relative part (the root, the empty path) is its own parent. *)
Definition parent_path (p : path) : path :=
  if has_relative_path p then
    match strip_trailing_slashes (remove_filename p) with
    | EmptyString => if is_absolute p then "/" else EmptyString
    | String _ _ as d => d
    end
  else p.

(** [path::generic_string]: libstdc++ writes the elements of the path with
    one separator after the root directory and one between two elements,
    so a run of separators comes out as a single one. *)
Fixpoint generic_string (p : path) : string :=
  match p with
  | EmptyString => EmptyString
  | String c r =>
      if is_slash c
         && match r with String c' _ => is_slash c' | EmptyString => false end
      then generic_string r
      else String c (generic_string r)
  end.

(** [path::replace_filename] *)
Definition replace_filename (p : path) (replacement : path) : path :=
  append (remove_filename p) replacement.

End Path.

Export Path.

Infix "//" := Path.append (at level 40, left associativity).

(** ** The environment *)

(** [fs::directory_entry]: what the browser reads of it. *)
Record directory_entry := {
  entry_path : path;
  entry_is_directory : bool
}.

Inductive openmode := ios_in | ios_out | ios_app.

(** One observation of the file system: the answer every query of the
    program gets at that moment. [fs_exists] and [fs_is_directory] are
    [fs::exists] and [fs::is_directory] where they answer;
    [fs_directory_iterator] is [None] where [fs::directory_iterator]
    throws and otherwise the entries in the order the iterator yields them;
    [fs_ifstream] is [None] where the stream fails to open and otherwise
    the bytes a read from its start delivers; [fs_tellg_end] is the
    position [tellg()] reports after [seekg(0, std::ios::end)] on that
    stream, [None] where it reports -1; [fs_ofstream] tells whether an
    output stream opens in the given mode. [fs_heap] belongs to the
    process rather than to the file system: whether [new char[n]] obtains
    its memory at that moment. *)
Record filesystem := {
  fs_current_path : path;
  fs_exists : path -> bool;
  fs_is_directory : path -> bool;
  fs_directory_iterator : path -> option (list directory_entry);
  fs_ifstream : path -> option string;
  fs_tellg_end : path -> option N;
  fs_ofstream : path -> openmode -> bool;
  fs_heap : N -> bool
}.

(** What the program does to the file system: a stream opened for output
    on [p] in mode [m], and the bytes written before it is closed. *)
Record fs_effect := {
  eff_path : path;
  eff_mode : openmode;
  eff_data : string
}.

Inductive exception :=
| ios_base_failure (what : string)
| filesystem_error (p : path)
| bad_alloc.

(** ** State and exceptions *)

(** The process state a member function can touch: standard output, the
    writes issued so far, and the object the member function is called on. *)
Record state (O : Type) := {
  cout : string;
  fs_log : list fs_effect;
  self : O
}.
Arguments cout {O} _.
Arguments fs_log {O} _.
Arguments self {O} _.

Inductive outcome (O A : Type) :=
| Val (a : A) (s : state O)
| Exc (e : exception) (s : state O).
Arguments Val {O A} _ _.
Arguments Exc {O A} _ _.

Definition M (O A : Type) : Type := state O -> outcome O A.

Definition ret {O A} (a : A) : M O A := fun s => Val a s.

Definition bind {O A B} (m : M O A) (k : A -> M O B) : M O B :=
  fun s => match m s with
           | Val a s' => k a s'
           | Exc e s' => Exc e s'
           end.

Definition throw {O A} (e : exception) : M O A := fun s => Exc e s.

Declare Scope io_scope.
Delimit Scope io_scope with io.
Notation "x <- m ;; k" := (bind m (fun x => k))
  (at level 100, m at next level, right associativity) : io_scope.
Notation "m ;; k" := (bind m (fun _ => k))
  (at level 100, right associativity) : io_scope.
Local Open Scope io_scope.

Definition get_self {O} : M O O := fun s => Val (self s) s.

Definition put_self {O} (o : O) : M O unit :=
  fun s => Val tt {| cout := cout s; fs_log := fs_log s; self := o |}.

(** [std::cout << text] *)
Definition write_cout {O} (text : string) : M O unit :=
  fun s => Val tt {| cout := cout s +:+ text; fs_log := fs_log s; self := self s |}.

(** A [std::ofstream] on [p] that opened, received [data] and was closed. *)
Definition log_ofstream {O} (p : path) (m : openmode) (data : string) : M O unit :=
  fun s => Val tt {| cout := cout s;
                     fs_log := fs_log s ++ [{| eff_path := p; eff_mode := m; eff_data := data |}];
                     self := self s |}.

(** ** Console *)

Module ansi.
Definition esc : string := String (ascii_of_nat 27) EmptyString.
Module colors.
Definition red : string := esc +:+ "[31m".
Definition blue : string := esc +:+ "[34m".
Definition green : string := esc +:+ "[32m".
End colors.
Module mods.
Definition bold : string := esc +:+ "[1m".
Definition reset : string := esc +:+ "[0m".
Definition console_clear : string := esc +:+ "[2J" +:+ esc +:+ "[H".
End mods.
End ansi.

Definition newline : string := String (ascii_of_nat 10) EmptyString.
Definition tab : string := String (ascii_of_nat 9) EmptyString.

Definition console_clear {O} : M O unit := write_cout ansi.mods.console_clear.

(** [print_text(text, color, mod, sep)]; the defaults are [""], [""], ["\n"]. *)
Definition print_text {O} (text color mod_ sep : string) : M O unit :=
  write_cout (mod_ +:+ color +:+ text +:+ sep +:+ ansi.mods.reset).

(** [std::to_string(int)] *)
Definition to_string (n : Z) : string := pretty n.


(** ** Reading a stream into a buffer *)

Definition SIZE_MAX : N := 2 ^ 64 - 1.
Definition PTRDIFF_MAX : N := 2 ^ 63 - 1.

(** [file_size = file_stream.tellg()] after [seekg(0, std::ios::end)]: the
    position, or -1 converted to [std::size_t]. *)
Definition tellg_size (fs : filesystem) (p : path) : N :=
  match fs_tellg_end fs p with
  | Some pos => pos
  | None => SIZE_MAX
  end.

(** [std::make_unique<char[]>(n)]: whether the array is obtained; a size
    beyond [PTRDIFF_MAX] never is, and [std::bad_alloc] (or the
    [std::bad_array_new_length] derived from it) is thrown. *)
Definition make_unique_char (fs : filesystem) (n : N) : bool :=
  (n <=? PTRDIFF_MAX)%N && fs_heap fs n.

Definition NUL : ascii := ascii_of_nat 0.

(** The array of [n] bytes, value-initialised by [make_unique], after
    [file_stream.read(buffer.get(), n)] from the start of a stream that
    delivers [bytes]: the first [n] of them, and zeros where the stream
    ran out. *)
Fixpoint read_buffer (n : nat) (bytes : string) : string :=
  match n with
  | O => EmptyString
  | S n' =>
      match bytes with
      | EmptyString => String NUL (read_buffer n' EmptyString)
      | String c r => String c (read_buffer n' r)
      end
  end.

(** ** [file_t]: the members both snapshots of tools.hpp share *)

Record file_t := {
  size_ : N;
  text_ : string;
  path_ : path
}.

(** Member initialisers alone: [size_{}], an empty [text_], an empty [path_]. *)
Definition file_t_members : file_t :=
  {| size_ := 0; text_ := EmptyString; path_ := EmptyString |}.

(** [void set_path(path_reference path)] *)
Definition set_path (fs : filesystem) (new_path : path) (this : file_t) : file_t :=
  let tmp_path := remove_filename new_path in
  if fs_exists fs tmp_path then
    {| size_ := size_ this;
       text_ := text_ this;
       path_ := if fs_is_directory fs new_path
                then new_path // "temporary_file.txt"
                else new_path |}
  else this.

(** [void set_text(string_reference text)] *)
Definition set_text (text : string) (this : file_t) : file_t :=
  {| size_ := N.of_nat (String.length text);
     text_ := text;
     path_ := path_ this |}.

(** [void set_text(const char* text, size_type size)]: [std::string(text, size)]
    copies the first [size] bytes of the buffer. *)
Definition set_text_n (text : string) (size : N) (this : file_t) : file_t :=
  set_text (substring 0 (N.to_nat size) text) this.

(** [void set_filename(string_reference name)] (later tools.hpp only) *)
Definition set_filename (name : string) (this : file_t) : file_t :=
  {| size_ := size_ this;
     text_ := text_ this;
     path_ := replace_filename (path_ this) name |}.

Definition get_text (this : file_t) : string := text_ this.
Definition get_path_fs (this : file_t) : path := path_ this.
Definition get_path (this : file_t) : string := generic_string (path_ this).
Definition size (this : file_t) : N := size_ this.

(** [bool empty() const] *)
Definition empty (this : file_t) : bool := (size_ this =? 0)%N.

(** [bool exists() const] *)
Definition file_exists (fs : filesystem) (this : file_t) : bool :=
  fs_exists fs (path_ this) && negb (fs_is_directory fs (path_ this)).

Fixpoint string_store (s : string) (i : nat) (c : ascii) : string :=
  match s, i with
  | EmptyString, _ => EmptyString
  | String _ r, O => String c r
  | String a r, S i' => String a (string_store r i' c)
  end.

(** [char& operator[](int index)] used to store [c]; defined for an index
    inside the text only. *)
Definition store_at (index : Z) (c : ascii) (this : file_t) : option file_t :=
  if ((0 <=? index) && (index <? Z.of_nat (String.length (text_ this))))%Z then
    Some {| size_ := size_ this;
            text_ := string_store (text_ this) (Z.to_nat index) c;
            path_ := path_ this |}
  else None.

(** The arguments of the constructor overloads. *)
Inductive ctor_args :=
| args_none
| args_path (p : path)
| args_text (text : string)
| args_buf (text : string) (size : N)
| args_path_text (p : path) (text : string)
| args_path_buf (p : path) (text : string) (size : N).

(** One interaction of the browser with its user: the file system as the
    listing sees it, the token typed at the menu, the token typed at the
    file name prompt (read by "c" only), and the file system as the
    action that follows the menu sees it. *)
Record interaction := {
  fs_listing : filesystem;
  in_opt : string;
  in_filename : string;
  fs_after : filesystem
}.

(** How one pass through the body of [while (true)] ends. *)
Inductive control :=
| Continue (p : path)
| Return (s : string)
| Break.

(** ** src/tools.hpp *)

Module Tools.

(** [file_t()] *)
Definition file_t_default (fs : filesystem) : file_t :=
  {| size_ := 0; text_ := EmptyString;
     path_ := fs_current_path fs // "temporary_file.txt" |}.

(** [explicit file_t(path_reference path)] *)
Definition file_t_path (fs : filesystem) (p : path) : file_t :=
  set_path fs p file_t_members.

(** [explicit file_t(string_reference text) : file_t()] *)
Definition file_t_text (fs : filesystem) (text : string) : file_t :=
  set_text text (file_t_default fs).

(** [explicit file_t(const char* text, size_type size) : file_t()] *)
Definition file_t_buf (fs : filesystem) (text : string) (n : N) : file_t :=
  set_text_n text n (file_t_default fs).

(** [explicit file_t(path_reference path, string_reference text)] *)
Definition file_t_path_text (fs : filesystem) (p : path) (text : string) : file_t :=
  set_text text (set_path fs p file_t_members).

(** [explicit file_t(path_reference path, const char* text, size_type size)] *)
Definition file_t_path_buf (fs : filesystem) (p : path) (text : string) (n : N) : file_t :=
  set_text_n text n (set_path fs p file_t_members).

(** Overload resolution. *)
Definition construct (fs : filesystem) (a : ctor_args) : file_t :=
  match a with
  | args_none => file_t_default fs
  | args_path p => file_t_path fs p
  | args_text t => file_t_text fs t
  | args_buf t n => file_t_buf fs t n
  | args_path_text p t => file_t_path_text fs p t
  | args_path_buf p t n => file_t_path_buf fs p t n
  end.

(** [class monitoring]: its only data member. *)
Record monitoring := { dirs_ : gmap string (bool * string) }.

(** [monitoring() = default] *)
Definition monitoring_default : monitoring := {| dirs_ := ∅ |}.

(** [dirs_[key] = value] *)
Definition dirs_assign (key : string) (value : bool * string) : M monitoring unit :=
  this <- get_self ;;
  put_self {| dirs_ := <[key := value]> (dirs_ this) |}.

(** [file_t read_file(path_reference path) const] *)
Definition read_file {O} (fs : filesystem) (p : path) : M O file_t :=
  if negb (fs_exists fs p) || fs_is_directory fs p then
    ret (file_t_default fs)
  else
    match fs_ifstream fs p with
    | Some bytes =>
        let file_size := tellg_size fs p in
        if make_unique_char fs file_size then
          let buffer := read_buffer (N.to_nat file_size) bytes in
          ret (file_t_path_buf fs p buffer file_size)
        else throw bad_alloc
    | None =>
        let error_text := "Error: Cannot open file: " in
        let filename := generic_string (filename p) in
        throw (ios_base_failure (error_text +:+ filename))
    end.

(** [void read_file(file_t& file) const] *)
Definition read_file_into {O} (fs : filesystem) (file : file_t) : M O file_t :=
  read_file fs (get_path_fs file).

(** [void create_file(path_reference path) const] *)
Definition create_file {O} (fs : filesystem) (p : path) : M O unit :=
  let tmp_path := remove_filename p in
  if fs_exists fs tmp_path then
    let new_file := if fs_is_directory fs p then p // "temporary_file.txt" else p in
    if fs_ofstream fs new_file ios_out then
      log_ofstream new_file ios_out EmptyString
    else
      let error_text := "Error: Cannot create file: " in
      let filename := generic_string (filename new_file) in
      throw (ios_base_failure (error_text +:+ filename))
  else ret tt.

(** [void create_file(const file_t& file) const] *)
Definition create_file_from {O} (fs : filesystem) (file : file_t) : M O unit :=
  let p := get_path_fs file in
  if fs_ofstream fs p ios_out then
    log_ofstream p ios_out (get_text file)
  else
    let error_text := "Error: Cannot create file: " in
    let filename := generic_string (filename p) in
    throw (ios_base_failure (error_text +:+ filename)).

(** The body of the range-for of [print_filesystem], from entry [num] on. *)
Fixpoint print_entries (entries : list directory_entry) (num : Z) : M monitoring unit :=
  match entries with
  | [] => ret tt
  | entry :: rest =>
      (if entry_is_directory entry then
         print_text (to_string num +:+ ".") ansi.colors.red "" " " ;;
         print_text "(Dir)" ansi.colors.blue ansi.mods.bold tab ;;
         dirs_assign (to_string num) (true, generic_string (filename (entry_path entry)))
       else
         print_text (to_string num +:+ ".") ansi.colors.red "" " " ;;
         print_text "(File)" ansi.colors.green ansi.mods.bold tab ;;
         dirs_assign (to_string num) (false, generic_string (filename (entry_path entry)))) ;;
      print_text (generic_string (filename (entry_path entry))) "" "" newline ;;
      print_entries rest (num + 1)
  end.

(** [void print_filesystem(std::string_view path) const] *)
Definition print_filesystem (fs : filesystem) (p : string) : M monitoring unit :=
  console_clear ;;
  print_text ("DIRS / FILES:" +:+ newline) ansi.colors.blue ansi.mods.bold newline ;;
  match fs_directory_iterator fs p with
  | Some entries => print_entries entries 1
  | None => throw (filesystem_error p)
  end.

(** [void print_menu(std::string_view path) const noexcept] *)
Definition print_menu {O} (p : string) : M O unit :=
  print_text (newline +:+ "CURRENT_DIR: ") ansi.colors.red ansi.mods.bold " " ;;
  print_text p ansi.colors.blue ansi.mods.bold (newline +:+ newline) ;;
  print_text "b. BACK" ansi.colors.red ansi.mods.bold newline ;;
  print_text "c. CREATE FILE" ansi.colors.red ansi.mods.bold newline ;;
  print_text ("0. EXIT" +:+ newline) ansi.colors.red ansi.mods.bold newline ;;
  print_text "Select menu item:" ansi.colors.green "" " ".

(** The [if] chain of the loop body, entered after [std::cin >> opt]. *)
Definition resolve (r : interaction) (p : path) (path_str : string)
  : M monitoring control :=
  let opt := in_opt r in
  if String.eqb opt "0" then ret Break
  else if String.eqb opt "b" then ret (Continue (parent_path p))
  else if String.eqb opt "c" then
    print_text (newline +:+ "Enter filename: ") ansi.colors.blue "" " " ;;
    let filename := in_filename r in
    create_file (fs_after r) (p // filename) ;;
    ret (Continue p)
  else
    this <- get_self ;;
    match dirs_ this !! opt with
    | Some (is_dir, name) =>
        let p := p // name in
        if negb is_dir then
          let path_str := generic_string p in
          if negb (fs_exists (fs_after r) path_str) then
            print_text "The file does not exist" ansi.colors.red "" " " ;;
            ret (Continue p)
          else ret (Return path_str)
        else ret (Continue p)
    | None => ret (Continue p)
    end.

(** One pass through the body of [while (true)] of [get_file_path]. *)
Definition loop_body (r : interaction) (p : path) : M monitoring control :=
  let path_str := generic_string p in
  print_filesystem (fs_listing r) path_str ;;
  print_menu path_str ;;
  resolve r p path_str.

(** The loop of [get_file_path] over a finite script of interactions;
    [None] when the script ends while the loop is still running. *)
Fixpoint browse (script : list interaction) (p : path) : M monitoring (option string) :=
  match script with
  | [] => ret None
  | r :: script' =>
      c <- loop_body r p ;;
      match c with
      | Break => ret (Some EmptyString)
      | Return s => ret (Some s)
      | Continue p' => browse script' p'
      end
  end.

(** [std::string get_file_path() const] *)
Definition get_file_path (fs : filesystem) (script : list interaction)
  : M monitoring (option string) :=
  browse script (fs_current_path fs).

End Tools.

(** ** The later tools.hpp (unnamed part 000) *)

Module Part000.

(** [file_t()] *)
Definition file_t_default (fs : filesystem) : file_t :=
  {| size_ := 0; text_ := EmptyString;
     path_ := fs_current_path fs // "temporary_file.txt" |}.

(** [explicit file_t(path_reference path) : file_t()] *)
Definition file_t_path (fs : filesystem) (p : path) : file_t :=
  set_path fs p (file_t_default fs).

(** [explicit file_t(string_reference text) : file_t()] *)
Definition file_t_text (fs : filesystem) (text : string) : file_t :=
  set_text text (file_t_default fs).

(** [explicit file_t(const char* text, size_type size) : file_t()] *)
Definition file_t_buf (fs : filesystem) (text : string) (n : N) : file_t :=
  set_text_n text n (file_t_default fs).

(** [explicit file_t(path_reference path, string_reference text) : file_t()] *)
Definition file_t_path_text (fs : filesystem) (p : path) (text : string) : file_t :=
  set_text text (set_path fs p (file_t_default fs)).

(** [explicit file_t(path_reference path, const char* text, size_type size) : file_t()] *)
Definition file_t_path_buf (fs : filesystem) (p : path) (text : string) (n : N) : file_t :=
  set_text_n text n (set_path fs p (file_t_default fs)).

(** Overload resolution. *)
Definition construct (fs : filesystem) (a : ctor_args) : file_t :=
  match a with
  | args_none => file_t_default fs
  | args_path p => file_t_path fs p
  | args_text t => file_t_text fs t
  | args_buf t n => file_t_buf fs t n
  | args_path_text p t => file_t_path_text fs p t
  | args_path_buf p t n => file_t_path_buf fs p t n
  end.

(** [class monitoring]: its only data member. *)
Record monitoring := { dirs_ : gmap string (bool * string) }.

(** [monitoring() = default] *)
Definition monitoring_default : monitoring := {| dirs_ := ∅ |}.

(** [dirs_[key] = value] *)
Definition dirs_assign (key : string) (value : bool * string) : M monitoring unit :=
  this <- get_self ;;
  put_self {| dirs_ := <[key := value]> (dirs_ this) |}.

(** [dirs_.clear()] *)
Definition dirs_clear : M monitoring unit := put_self {| dirs_ := ∅ |}.

(** [file_t read_file(path_reference path) const] *)
Definition read_file {O} (fs : filesystem) (p : path) : M O file_t :=
  if negb (fs_exists fs p) || fs_is_directory fs p then
    ret (file_t_default fs)
  else
    match fs_ifstream fs p with
    | Some bytes =>
        let file_size := tellg_size fs p in
        if make_unique_char fs file_size then
          let buffer := read_buffer (N.to_nat file_size) bytes in
          ret (file_t_path_buf fs p buffer file_size)
        else throw bad_alloc
    | None =>
        let error_text := "Error: Cannot open file: " in
        let filename := generic_string (filename p) in
        throw (ios_base_failure (error_text +:+ filename))
    end.

(** [void read_file(file_t& file) const] *)
Definition read_file_into {O} (fs : filesystem) (file : file_t) : M O file_t :=
  read_file fs (get_path_fs file).

(** [void write_file(path_reference path, std::string_view text) const] *)
Definition write_file {O} (fs : filesystem) (p : path) (text : string) : M O unit :=
  if negb (fs_exists fs p) || fs_is_directory fs p then
    ret tt
  else if fs_ofstream fs p ios_app then
    log_ofstream p ios_app text
  else
    let error_text := "Error: Cannot open file: " in
    let filename := generic_string (filename p) in
    throw (ios_base_failure (error_text +:+ filename)).

(** [void create_file(const file_t& file) const] *)
Definition create_file_from {O} (fs : filesystem) (file : file_t) : M O unit :=
  let p := get_path_fs file in
  if fs_ofstream fs p ios_out then
    log_ofstream p ios_out (get_text file)
  else
    let error_text := "Error: Cannot create file: " in
    let filename := generic_string (filename p) in
    throw (ios_base_failure (error_text +:+ filename)).

(** [void create_file(path_reference path) const] *)
Definition create_file {O} (fs : filesystem) (p : path) : M O unit :=
  create_file_from fs (file_t_path fs p).

(** The body of the range-for of [print_filesystem], from entry [num] on. *)
Fixpoint print_entries (entries : list directory_entry) (num : Z) : M monitoring unit :=
  match entries with
  | [] => ret tt
  | entry :: rest =>
      (if entry_is_directory entry then
         print_text (to_string num +:+ ".") ansi.colors.red "" " " ;;
         print_text "(Dir)" ansi.colors.blue ansi.mods.bold tab ;;
         dirs_assign (to_string num) (true, generic_string (filename (entry_path entry)))
       else
         print_text (to_string num +:+ ".") ansi.colors.red "" " " ;;
         print_text "(File)" ansi.colors.green ansi.mods.bold tab ;;
         dirs_assign (to_string num) (false, generic_string (filename (entry_path entry)))) ;;
      print_text (generic_string (filename (entry_path entry))) "" "" newline ;;
      print_entries rest (num + 1)
  end.

(** [void print_filesystem(std::string_view path) const] *)
Definition print_filesystem (fs : filesystem) (p : string) : M monitoring unit :=
  console_clear ;;
  print_text ("DIRS / FILES:" +:+ newline) ansi.colors.blue ansi.mods.bold newline ;;
  dirs_clear ;;
  match fs_directory_iterator fs p with
  | Some entries => print_entries entries 1
  | None => throw (filesystem_error p)
  end.

(** [void print_menu(std::string_view path) const noexcept] *)
Definition print_menu {O} (p : string) : M O unit :=
  print_text (newline +:+ "CURRENT_DIR: ") ansi.colors.red ansi.mods.bold " " ;;
  print_text p ansi.colors.blue ansi.mods.bold (newline +:+ newline) ;;
  print_text "b. BACK" ansi.colors.red ansi.mods.bold newline ;;
  print_text "c. CREATE FILE" ansi.colors.red ansi.mods.bold newline ;;
  print_text "d. SELECT CURRENT DIRECTORY" ansi.colors.red ansi.mods.bold newline ;;
  print_text ("0. EXIT" +:+ newline) ansi.colors.red ansi.mods.bold newline ;;
  print_text "Select menu item:" ansi.colors.green "" " ".

(** The [if] chain of the loop body, entered after [std::cin >> opt]. *)
Definition resolve (r : interaction) (p : path) (path_str : string)
  : M monitoring control :=
  let opt := in_opt r in
  if String.eqb opt "0" then ret Break
  else if String.eqb opt "d" then ret (Return path_str)
  else if String.eqb opt "b" then ret (Continue (parent_path p))
  else if String.eqb opt "c" then
    print_text (newline +:+ "Enter filename: ") ansi.colors.blue "" " " ;;
    let filename := in_filename r in
    create_file (fs_after r) (p // filename) ;;
    ret (Continue p)
  else
    this <- get_self ;;
    match dirs_ this !! opt with
    | Some (is_dir, name) =>
        let p := p // name in
        if negb is_dir then
          let path_str := generic_string p in
          if negb (fs_exists (fs_after r) path_str) then
            print_text "The file does not exist" ansi.colors.red "" " " ;;
            ret (Continue p)
          else ret (Return path_str)
        else ret (Continue p)
    | None => ret (Continue p)
    end.

(** One pass through the body of [while (true)] of [get_file_path]. *)
Definition loop_body (r : interaction) (p : path) : M monitoring control :=
  let path_str := generic_string p in
  print_filesystem (fs_listing r) path_str ;;
  print_menu path_str ;;
  resolve r p path_str.

(** The loop of [get_file_path] over a finite script of interactions;
    [None] when the script ends while the loop is still running. *)
Fixpoint browse (script : list interaction) (p : path) : M monitoring (option string) :=
  match script with
  | [] => ret None
  | r :: script' =>
      c <- loop_body r p ;;
      match c with
      | Break => ret (Some EmptyString)
      | Return s => ret (Some s)
      | Continue p' => browse script' p'
      end
  end.

(** [std::string get_file_path() const] *)
Definition get_file_path (fs : filesystem) (script : list interaction)
  : M monitoring (option string) :=
  browse script (fs_current_path fs).

End Part000.

(** ** console_tools.hpp (unnamed part 001) *)

Module Part001.

(** [class filesystem_monitoring] has no data member. *)
Definition filesystem_monitoring : Type := unit.

(** The range-for of [get_file_path], from entry [num] on, over the
    local map [dirs]. *)
Fixpoint list_entries (entries : list directory_entry) (num : Z)
    (dirs : gmap string (bool * string))
  : M filesystem_monitoring (gmap string (bool * string)) :=
  match entries with
  | [] => ret dirs
  | entry :: rest =>
      dirs <- (if entry_is_directory entry then
                 print_text (to_string num +:+ ".") ansi.colors.red "" " " ;;
                 print_text "(Dir)" ansi.colors.blue ansi.mods.bold tab ;;
                 ret (<[to_string num :=
                          (true, generic_string (filename (entry_path entry)))]> dirs)
               else
                 print_text (to_string num +:+ ".") ansi.colors.red "" " " ;;
                 print_text "(File)" ansi.colors.green ansi.mods.bold tab ;;
                 ret (<[to_string num :=
                          (false, generic_string (filename (entry_path entry)))]> dirs)) ;;
      print_text (generic_string (filename (entry_path entry))) "" "" newline ;;
      list_entries rest (num + 1) dirs
  end.

(** The listing part of the loop body: a fresh [dirs], filled from the
    directory iterator. *)
Definition render (fs : filesystem) (p : path)
  : M filesystem_monitoring (gmap string (bool * string)) :=
  console_clear ;;
  let num := 1%Z in
  let dirs : gmap string (bool * string) := ∅ in
  print_text ("DIRS / FILES:" +:+ newline) ansi.colors.blue ansi.mods.bold newline ;;
  match fs_directory_iterator fs (generic_string p) with
  | Some entries => list_entries entries num dirs
  | None => throw (filesystem_error (generic_string p))
  end.

(** The menu the loop body prints after the listing. *)
Definition menu (p : path) : M filesystem_monitoring unit :=
  print_text (newline +:+ "CURRENT_DIR: ") ansi.colors.red ansi.mods.bold " " ;;
  print_text (generic_string p) ansi.colors.blue ansi.mods.bold (newline +:+ newline) ;;
  print_text "b. BACK" ansi.colors.red ansi.mods.bold newline ;;
  print_text "c. CREATE FILE" ansi.colors.red ansi.mods.bold newline ;;
  print_text ("0. EXIT" +:+ newline) ansi.colors.red ansi.mods.bold newline ;;
  print_text "Select menu item:" ansi.colors.green "" " ".

(** The [if] chain of the loop body, entered after [std::cin >> opt]. *)
Definition resolve (r : interaction) (p : path) (dirs : gmap string (bool * string))
  : M filesystem_monitoring control :=
  let opt := in_opt r in
  if String.eqb opt "0" then ret Break
  else if String.eqb opt "b" then ret (Continue (parent_path p))
  else if String.eqb opt "c" then
    print_text (newline +:+ "Enter filename: ") ansi.colors.blue "" " " ;;
    let filename := in_filename r in
    (if fs_ofstream (fs_after r) (p // filename) ios_out
     then log_ofstream (p // filename) ios_out EmptyString
     else ret tt) ;;
    ret (Continue p)
  else
    match dirs !! opt with
    | Some (is_dir, name) =>
        let p := p // name in
        if negb is_dir then
          if negb (fs_exists (fs_after r) (generic_string p)) then
            print_text "The file does not exist" ansi.colors.red "" " " ;;
            ret (Continue p)
          else ret (Return (generic_string p))
        else ret (Continue p)
    | None => ret (Continue p)
    end.

(** One pass through the body of [while (true)] of [get_file_path]. *)
Definition loop_body (r : interaction) (p : path) : M filesystem_monitoring control :=
  dirs <- render (fs_listing r) p ;;
  menu p ;;
  resolve r p dirs.

(** The loop of [get_file_path] over a finite script of interactions;
    [None] when the script ends while the loop is still running. *)
Fixpoint browse (script : list interaction) (p : path)
  : M filesystem_monitoring (option string) :=
  match script with
  | [] => ret None
  | r :: script' =>
      c <- loop_body r p ;;
      match c with
      | Break => ret (Some EmptyString)
      | Return s => ret (Some s)
      | Continue p' => browse script' p'
      end
  end.

(** [std::string get_file_path() const] *)
Definition get_file_path (fs : filesystem) (script : list interaction)
  : M filesystem_monitoring (option string) :=
  browse script (fs_current_path fs).

End Part001.

(** ** Observations *)

Definition returned {O A} (o : outcome O A) : option A :=
  match o with Val a _ => Some a | Exc _ _ => None end.

Definition thrown {O A} (o : outcome O A) : option exception :=
  match o with Val _ _ => None | Exc e _ => Some e end.

Definition final {O A} (o : outcome O A) : state O :=
  match o with Val _ s => s | Exc _ s => s end.

(** The process before the first call: nothing printed, nothing written. *)
Definition start {O} (o : O) : state O :=
  {| cout := EmptyString; fs_log := []; self := o |}.

(** ** The handles a program can hold *)

(** A call of a mutating member of [file_t]. *)
Inductive call :=
| call_set_path (fs : filesystem) (p : path)
| call_set_text (text : string)
| call_set_text_n (text : string) (n : N)
| call_set_filename (name : string)
| call_store (index : Z) (c : ascii).

(** The handle after the call; [None] where C++ leaves the call undefined
    (a buffer shorter than the size passed with it, an index outside the
    text). *)
Definition perform (c : call) (this : file_t) : option file_t :=
  match c with
  | call_set_path fs p => Some (set_path fs p this)
  | call_set_text text => Some (set_text text this)
  | call_set_text_n text n =>
      if (n <=? N.of_nat (String.length text))%N
      then Some (set_text_n text n this) else None
  | call_set_filename name => Some (set_filename name this)
  | call_store index c => store_at index c this
  end.

(** Every [file_t] value comes out of a constructor of one of the two
    snapshots, followed by calls of its mutating members. *)
Inductive FileHandle : file_t -> Prop :=
| constructed_tools fs a : FileHandle (Tools.construct fs a)
| constructed_part000 fs a : FileHandle (Part000.construct fs a)
| mutated h c h' : FileHandle h -> perform c h = Some h' -> FileHandle h'.

(** [set_text] called with each buffer of [bufs] in turn. *)
Definition set_text_each (bufs : list string) (this : file_t) : file_t :=
  fold_left (fun h text => set_text text h) bufs this.

(** ** Sample file systems *)

Module Samples.

Record node := {
  node_path : path;
  node_is_dir : bool;
  node_bytes : option string;
  node_writable : bool
}.

Definition names (p : path) (n : node) : bool :=
  String.eqb p (node_path n)
  || (node_is_dir n && String.eqb p (node_path n +:+ "/")).

Definition lookup_node (nodes : list node) (p : path) : option node :=
  List.find (names p) nodes.

Definition children (nodes : list node) (dir : node) : list directory_entry :=
  List.map (fun n => {| entry_path := node_path n;
                        entry_is_directory := node_is_dir n |})
    (List.filter (fun n => String.eqb (parent_path (node_path n)) (node_path dir)
                           && negb (String.eqb (node_path n) (node_path dir)))
       nodes).

Definition filesystem_of (cwd : path) (nodes : list node) : filesystem :=
  {| fs_current_path := cwd;
     fs_exists p := match lookup_node nodes p with Some _ => true | None => false end;
     fs_is_directory p :=
       match lookup_node nodes p with Some n => node_is_dir n | None => false end;
     fs_directory_iterator p :=
       match lookup_node nodes p with
       | Some n => if node_is_dir n then Some (children nodes n) else None
       | None => None
       end;
     fs_ifstream p :=
       match lookup_node nodes p with
       | Some n => if node_is_dir n then None else node_bytes n
       | None => None
       end;
     fs_tellg_end p :=
       match lookup_node nodes p with
       | Some n =>
           if node_is_dir n then None
           else option_map (fun bytes => N.of_nat (String.length bytes)) (node_bytes n)
       | None => None
       end;
     fs_ofstream p _ :=
       match lookup_node nodes p with
       | Some n => negb (node_is_dir n) && node_writable n
       | None =>
           match lookup_node nodes (remove_filename p) with
           | Some d => node_is_dir d && node_writable d
           | None => false
           end
       end;
     fs_heap n := (n <? 2 ^ 32)%N |}.

Definition dir (p : path) : node :=
  {| node_path := p; node_is_dir := true; node_bytes := None; node_writable := true |}.

Definition file (p : path) (bytes : string) : node :=
  {| node_path := p; node_is_dir := false; node_bytes := Some bytes; node_writable := true |}.

(** A file that exists and that no stream can open. *)
Definition locked (p : path) : node :=
  {| node_path := p; node_is_dir := false; node_bytes := None; node_writable := false |}.

(** /home/user holds notes.txt, docs/ and locked.bin; docs/ holds readme.md. *)
Definition home : filesystem :=
  filesystem_of "/home/user"
    [ dir "/"; dir "/home"; dir "/home/user";
      file "/home/user/notes.txt" "hello";
      dir "/home/user/docs";
      locked "/home/user/locked.bin";
      file "/home/user/docs/readme.md" "# docs" ].

(** The same tree after notes.txt was deleted. *)
Definition home_without_notes : filesystem :=
  filesystem_of "/home/user"
    [ dir "/"; dir "/home"; dir "/home/user";
      dir "/home/user/docs";
      locked "/home/user/locked.bin";
      file "/home/user/docs/readme.md" "# docs" ].

(** The user picks entry 1 (notes.txt) of the listing of /home/user;
    the file is deleted before the browser looks at it. *)
Definition pick_deleted_file : interaction :=
  {| fs_listing := home; in_opt := "1"; in_filename := EmptyString;
     fs_after := home_without_notes |}.

(** The user types [opt] while the file system is [fs]. *)
Definition types (fs : filesystem) (opt : string) : interaction :=
  {| fs_listing := fs; in_opt := opt; in_filename := EmptyString; fs_after := fs |}.

End Samples.

(** ** The token table, as the specification words it *)

(** Entries numbered from [num] on, in enumeration order: token
    [to_string num] for the first, [to_string (num + 1)] for the next, each
    mapped to the pair (is a directory, name). *)
Fixpoint token_table_from (num : Z) (entries : list directory_entry)
  : gmap string (bool * string) :=
  match entries with
  | [] => ∅
  | entry :: rest =>
      <[to_string num := (entry_is_directory entry, filename (entry_path entry))]>
        (token_table_from (num + 1) rest)
  end.

(** Tokens "1" ... "n" for a listing of n entries. *)
Definition token_table (entries : list directory_entry) : gmap string (bool * string) :=
  token_table_from 1 entries.

(** No two separators in a row. *)
Fixpoint single_separators (p : path) : bool :=
  match p with
  | EmptyString => true
  | String c r =>
      negb (is_slash c
            && match r with String c' _ => is_slash c' | EmptyString => false end)
      && single_separators r
  end.

(** A handle from which path and contents are read back as [p] and
    [bytes]: [get_path_fs] gives the path, [get_path] its generic-format
    string, which is [p] when [p] has no two separators in a row. *)
Definition reads_back (this : file_t) (p : path) (bytes : string) : Prop :=
  get_path_fs this = p
  /\ get_path this = generic_string p
  /\ (single_separators p = true -> get_path this = p)
  /\ get_text this = bytes
  /\ size this = N.of_nat (String.length bytes).

(** A file system that, as POSIX does, takes a path written with repeated
    separators for the path written with single ones. *)
Definition posix (fs : filesystem) : filesystem :=
  {| fs_current_path := fs_current_path fs;
     fs_exists p := fs_exists fs (generic_string p);
     fs_is_directory p := fs_is_directory fs (generic_string p);
     fs_directory_iterator p := fs_directory_iterator fs (generic_string p);
     fs_ifstream p := fs_ifstream fs (generic_string p);
     fs_tellg_end p := fs_tellg_end fs (generic_string p);
     fs_ofstream p m := fs_ofstream fs (generic_string p) m;
     fs_heap := fs_heap fs |}.

(** The sample tree with a stream that opens and cannot seek: a FIFO at
    /home/user/pipe, delivering "ping". *)
Definition home_with_pipe : filesystem :=
  let is_pipe p := String.eqb p "/home/user/pipe" in
  {| fs_current_path := fs_current_path Samples.home;
     fs_exists p := is_pipe p || fs_exists Samples.home p;
     fs_is_directory := fs_is_directory Samples.home;
     fs_directory_iterator := fs_directory_iterator Samples.home;
     fs_ifstream p := if is_pipe p then Some "ping" else fs_ifstream Samples.home p;
     fs_tellg_end p := if is_pipe p then None else fs_tellg_end Samples.home p;
     fs_ofstream := fs_ofstream Samples.home;
     fs_heap := fs_heap Samples.home |}.

(** The handle [file_t()] builds: the sentinel path in the working
    directory, no contents. *)
Definition is_default_handle (fs : filesystem) (this : file_t) : Prop :=
  get_path_fs this = fs_current_path fs // "temporary_file.txt"
  /\ get_text this = EmptyString /\ size this = 0%N.

(** What [print_text("The file does not exist", color::red, "", " ")]
    sends to standard output. *)
Definition file_missing_message : string :=
  "" +:+ ansi.colors.red +:+ "The file does not exist" +:+ " " +:+ ansi.mods.reset.

(** The state after [print_text("The file does not exist", ...)]. *)
Definition told_missing {O} (s : state O) : state O :=
  {| cout := cout s +:+ file_missing_message; fs_log := fs_log s; self := self s |}.

Definition is_digit (c : ascii) : bool :=
  (48 <=? nat_of_ascii c)%nat && (nat_of_ascii c <=? 57)%nat.

(** The tokens of the menu, over both menus. *)
Definition reserved (tok : string) : bool :=
  String.eqb tok "0" || String.eqb tok "b" || String.eqb tok "c" || String.eqb tok "d".

(** ** [file_t]: the remaining getters of the later tools.hpp *)

(** [fs::path get_dir_fs() const] *)
Definition get_dir_fs (this : file_t) : path := parent_path (path_ this).

(** [std::string get_dir() const] *)
Definition get_dir (this : file_t) : string := generic_string (parent_path (path_ this)).

(** [std::string get_filename() const] *)
Definition get_filename (this : file_t) : string := generic_string (filename (path_ this)).

(** A final segment as a directory iterator reports it: not empty, no
    separator inside. *)
Fixpoint no_slash (s : string) : bool :=
  match s with
  | EmptyString => true
  | String c r => negb (is_slash c) && no_slash r
  end.

Definition plain_name (name : string) : bool :=
  match name with EmptyString => false | String _ _ => no_slash name end.

(** A path as the browser holds it: the root, or one that does not end in
    a separator. *)
Definition tidy (p : path) : bool := String.eqb p "/" || has_filename p.

(** ** [get_correct_int] (the same text in every snapshot) *)

(** [std::cin]: the characters not yet extracted. The function clears the
    state flags before every use of the stream that follows a failure, so
    the characters left decide each extraction. *)
Definition istream : Type := string.

(** [std::isspace] in the "C" locale. *)
Definition isspace (c : ascii) : bool :=
  let n := nat_of_ascii c in
  (n =? 32)%nat || ((9 <=? n)%nat && (n <=? 13)%nat).

Fixpoint skip_ws (s : string) : string :=
  match s with
  | EmptyString => EmptyString
  | String c r => if isspace c then skip_ws r else s
  end.

(** The characters up to the next white space, and what follows them. *)
Fixpoint take_word (s : string) : string * string :=
  match s with
  | EmptyString => (EmptyString, EmptyString)
  | String c r =>
      if isspace c then (EmptyString, s)
      else let '(w, rest) := take_word r in (String c w, rest)
  end.

(** [std::cin >> str]: leading white space is skipped, the word is
    extracted; at the end of the input the string stays empty. *)
Definition cin_extract : M istream string :=
  fun s =>
    let '(w, rest) := take_word (skip_ws (self s)) in
    Val w {| cout := cout s; fs_log := fs_log s; self := rest |}.

(** [std::cin.ignore(max, '\n')]: everything through the next newline. *)
Fixpoint ignore_line (s : string) : string :=
  match s with
  | EmptyString => EmptyString
  | String c r => if Ascii.eqb c (ascii_of_nat 10) then r else ignore_line r
  end.

(** [void input_stream_clear()] *)
Definition input_stream_clear : M istream unit :=
  fun s => Val tt {| cout := cout s; fs_log := fs_log s; self := ignore_line (self s) |}.

Definition INT_MIN : Z := -2147483648.
Definition INT_MAX : Z := 2147483647.

Inductive stoi_error := invalid_argument | out_of_range.

Definition digit_value (c : ascii) : option Z :=
  let n := nat_of_ascii c in
  if (48 <=? n)%nat && (n <=? 57)%nat then Some (Z.of_nat n - 48)%Z else None.

(** The value of the longest run of decimal digits [s] starts with, on top
    of [acc]; [None] when no digit was seen. *)
Fixpoint digits (s : string) (acc : Z) (seen : bool) : option Z :=
  match s with
  | EmptyString => if seen then Some acc else None
  | String c r =>
      match digit_value c with
      | Some d => digits r (10 * acc + d) true
      | None => if seen then Some acc else None
      end
  end.

(** [std::stoi(str)]: [strtol] in base 10 (white space, a sign, digits;
    what follows the digits is left alone), then the check against the
    range of [int]. *)
Definition stoi (str : string) : stoi_error + Z :=
  let s := skip_ws str in
  let '(negative, s) :=
    match s with
    | String c r =>
        if Ascii.eqb c "-" then (true, r)
        else if Ascii.eqb c "+" then (false, r)
        else (false, s)
    | EmptyString => (false, s)
    end in
  match digits s 0 false with
  | None => inl invalid_argument
  | Some v =>
      let v := if negative then (- v)%Z else v in
      if ((INT_MIN <=? v) && (v <=? INT_MAX))%Z then inr v else inl out_of_range
  end.

(** [int get_correct_int()], the loop run at most [fuel] times; [None]
    when it is still running after that. *)
Fixpoint get_correct_int (fuel : nat) : M istream (option Z) :=
  match fuel with
  | O => ret None
  | S fuel' =>
      input_value <- cin_extract ;;
      match stoi input_value with
      | inr result => ret (Some result)
      | inl _ =>
          print_text (newline +:+ "ERROR: Invalid input!" +:+ newline)
            ansi.colors.red ansi.mods.bold newline ;;
          print_text "Try again:" ansi.colors.green "" " " ;;
          input_stream_clear ;;
          get_correct_int fuel'
      end
  end.

(** What one failed attempt sends to standard output. *)
Definition invalid_input_message : string :=
  (ansi.mods.bold +:+ ansi.colors.red
     +:+ (newline +:+ "ERROR: Invalid input!" +:+ newline) +:+ newline +:+ ansi.mods.reset)
  +:+ ("" +:+ ansi.colors.green +:+ "Try again:" +:+ " " +:+ ansi.mods.reset).

(** Shapes of input. *)

Definition is_decimal (c : ascii) : bool :=
  match digit_value c with Some _ => true | None => false end.

Fixpoint has_digit (s : string) : bool :=
  match s with
  | EmptyString => false
  | String c r => is_decimal c || has_digit r
  end.

Fixpoint no_space (s : string) : bool :=
  match s with
  | EmptyString => true
  | String c r => negb (isspace c) && no_space r
  end.

Fixpoint no_newline (s : string) : bool :=
  match s with
  | EmptyString => true
  | String c r => negb (Ascii.eqb c (ascii_of_nat 10)) && no_newline r
  end.

Fixpoint all_decimal (s : string) : bool :=
  match s with
  | EmptyString => true
  | String c r => is_decimal c && all_decimal r
  end.

(** What [digits] makes of a run of digits standing for [v]. *)
Definition reads_as (ds : string) (v : Z) : Prop :=
  forall t acc b,
    digits (ds +:+ t) acc b
    = digits t (acc * 10 ^ Z.of_nat (String.length ds) + v)%Z true.

(** What may follow a word: nothing, or white space. *)
Definition word_ends (rest : string) : bool :=
  match rest with EmptyString => true | String c _ => isspace c end.

(** What may follow the digits [std::stoi] converts: anything but a digit. *)
Definition digits_end (junk : string) : bool :=
  match junk with EmptyString => true | String c _ => negb (is_decimal c) end.

(** [n] copies of [s]. *)
Fixpoint times (n : nat) (s : string) : string :=
  match n with O => EmptyString | S n' => s +:+ times n' s end.

(** The stream holding [chars]. *)
Definition with_cin (chars : string) (s : state istream) : state istream :=
  {| cout := cout s; fs_log := fs_log s; self := chars |}.

(** The console after [text] was printed. *)
Definition printed {O} (text : string) (s : state O) : state O :=
  {| cout := cout s +:+ text; fs_log := fs_log s; self := self s |}.

(** ** [time::monitoring] / [time_monitoring] *)

Module time.

(** [time_type]: a [system_clock::time_point], its count of nanoseconds
    since the epoch. *)
Definition time_type : Type := Z.

(** [time_type()] *)
Definition time_type_default : time_type := 0%Z.

Record monitoring := {
  start_point_ : time_type;
  end_point_ : time_type
}.

(** [monitoring() = default] *)
Definition monitoring_default : monitoring :=
  {| start_point_ := time_type_default; end_point_ := time_type_default |}.

(** [void set_start_point()], the clock reading [now] *)
Definition set_start_point (now : time_type) (this : monitoring) : monitoring :=
  {| start_point_ := now; end_point_ := end_point_ this |}.

(** [void set_end_point()], the clock reading [now] *)
Definition set_end_point (now : time_type) (this : monitoring) : monitoring :=
  {| start_point_ := start_point_ this; end_point_ := now |}.

(** [time_point_cast<std::chrono::seconds>(t).time_since_epoch().count()]:
    the division rounds toward zero. *)
Definition seconds_count (t : time_type) : Z := Z.quot t 1000000000.

(** The conversion of the [long] difference to [std::size_t]. *)
Definition to_size_t (z : Z) : Z := (z mod 2 ^ 64)%Z.

(** [std::size_t get_time_offset() const]: the string of the
    [std::out_of_range] thrown, or the value returned, and the object
    after the call. *)
Definition get_time_offset (this : monitoring) : (string + Z) * monitoring :=
  if (start_point_ this =? time_type_default)%Z then
    (inl "Time.err(): missing start point", this)
  else if (end_point_ this =? time_type_default)%Z then
    (inl "Time.err(): missing end point", this)
  else
    let seconds_end_int := seconds_count (end_point_ this) in
    let seconds_start_int := seconds_count (start_point_ this) in
    (inr (to_size_t (seconds_end_int - seconds_start_int)),
     {| start_point_ := time_type_default; end_point_ := time_type_default |}).

End time.

(** ** Handles of the later tools.hpp on a real file system *)

(** On every file system the empty path names nothing. A handle of the
    later tools.hpp that met such file systems only, and whose file name
    was never set to the empty string. *)
Inductive Part000_handle : file_t -> Prop :=
| part000_constructed fs a :
    fs_exists fs EmptyString = false -> Part000_handle (Part000.construct fs a)
| part000_set_path fs p h :
    fs_exists fs EmptyString = false -> Part000_handle h -> Part000_handle (set_path fs p h)
| part000_set_text text h : Part000_handle h -> Part000_handle (set_text text h)
| part000_set_text_n text n h : Part000_handle h -> Part000_handle (set_text_n text n h)
| part000_set_filename name h :
    name <> EmptyString -> Part000_handle h -> Part000_handle (set_filename name h).

(** The sample tree seen from /home/user, with notes.txt also reachable
    under its bare name. *)
Definition home_by_name : filesystem :=
  Samples.filesystem_of "/home/user"
    [ Samples.dir "/"; Samples.dir "/home"; Samples.dir "/home/user";
      Samples.file "/home/user/notes.txt" "hello";
      Samples.file "notes.txt" "hello" ].

(** * Properties *)

(** ** Paths *)

Example parent_path_samples :
  parent_path "/x/y" = "/x" /\ parent_path "/x" = "/" /\ parent_path "/" = "/"
  /\ parent_path "/x/y/" = "/x/y" /\ parent_path "x" = "".
Proof. repeat split. Qed.

Example remove_filename_samples :
  remove_filename "/a/b.txt" = "/a/" /\ remove_filename "/a/b/" = "/a/b/"
  /\ remove_filename "b.txt" = "" /\ filename "/a/b.txt" = "b.txt".
Proof. repeat split. Qed.

Example append_samples :
  "/a" // "b" = "/a/b" /\ "/a/" // "b" = "/a/b" /\ "/" // "b" = "/b"
  /\ "" // "b" = "b" /\ "/a" // "/b" = "/b".
Proof. repeat split. Qed.

Lemma remove_filename_filename (p : path) : remove_filename p +:+ filename p = p.
Proof.
  unfold remove_filename, filename.
  induction p as [|c r IH]; simpl; [reflexivity|].
  destruct (split_filename r) as [d f]. simpl in IH.
  destruct (is_slash c); [now rewrite <- IH|].
  destruct d; now rewrite <- IH.
Qed.

Lemma generic_string_cons (c : ascii) (r : string) :
  generic_string (String c r)
  = if is_slash c
       && match r with String c' _ => is_slash c' | EmptyString => false end
    then generic_string r
    else String c (generic_string r).
Proof. reflexivity. Qed.

(** A path without repeated separators is its own generic-format string. *)
Lemma generic_string_single (p : path) :
  single_separators p = true -> generic_string p = p.
Proof.
  induction p as [|c r IH]; [reflexivity|].
  intros H. cbn [single_separators] in H. apply andb_prop in H as [Hc Hr].
  rewrite generic_string_cons. apply negb_true_iff in Hc. rewrite Hc.
  now rewrite (IH Hr).
Qed.

Lemma no_slash_single (s : string) : no_slash s = true -> single_separators s = true.
Proof.
  induction s as [|c r IH]; [reflexivity|].
  intros H. cbn [no_slash] in H. apply andb_prop in H as [Hc Hr].
  cbn [single_separators]. apply negb_true_iff in Hc. rewrite Hc. now apply IH.
Qed.

Lemma no_slash_filename (p : path) : no_slash (filename p) = true.
Proof.
  unfold filename. induction p as [|c r IH]; [reflexivity|].
  cbn [split_filename]. destruct (split_filename r) as [d f]. cbn [snd] in IH.
  destruct (is_slash c) eqn:Ec; [exact IH|].
  destruct d; [|exact IH]. cbn [snd no_slash]. now rewrite Ec, IH.
Qed.

(** The generic-format string of a final segment is the segment. *)
Lemma generic_string_filename (p : path) : generic_string (filename p) = filename p.
Proof. apply generic_string_single, no_slash_single, no_slash_filename. Qed.

Lemma generic_string_nonempty (p : path) :
  p <> EmptyString -> generic_string p <> EmptyString.
Proof.
  induction p as [|c r IH]; [congruence|]. intros _.
  rewrite generic_string_cons.
  destruct (is_slash c && _) eqn:E; [|discriminate].
  destruct r; [now rewrite andb_false_r in E|]. now apply IH.
Qed.

(** ** [file_t] *)

Lemma substring_all (s : string) : substring 0 (String.length s) s = s.
Proof. induction s as [|c s IH]; simpl; [reflexivity | now rewrite IH]. Qed.

Lemma string_store_length (s : string) (i : nat) (c : ascii) :
  String.length (string_store s i c) = String.length s.
Proof.
  revert i; induction s as [|a s IH]; intros [|i]; simpl; try reflexivity.
  now rewrite IH.
Qed.

Lemma set_path_keeps_contents fs p h :
  size_ (set_path fs p h) = size_ h /\ text_ (set_path fs p h) = text_ h.
Proof. unfold set_path. destruct (fs_exists fs _); simpl; auto. Qed.

Lemma set_text_reads (text : string) (h : file_t) :
  get_text (set_text text h) = text
  /\ size (set_text text h) = N.of_nat (String.length text)
  /\ get_path_fs (set_text text h) = get_path_fs h.
Proof. repeat split. Qed.

(** The size field of every handle is the length of its text. *)
Lemma FileHandle_size_consistent (h : file_t) :
  FileHandle h -> size h = N.of_nat (String.length (get_text h)).
Proof.
  unfold size, get_text.
  induction 1 as [fs a | fs a | h c h' Hh IH Hc].
  - destruct a; simpl;
      unfold Tools.file_t_path, Tools.file_t_path_text, Tools.file_t_path_buf,
        Tools.file_t_buf, set_text_n; simpl; try reflexivity.
    destruct (set_path_keeps_contents fs p file_t_members) as [-> ->]. reflexivity.
  - destruct a; simpl;
      unfold Part000.file_t_path, Part000.file_t_path_text, Part000.file_t_path_buf,
        Part000.file_t_buf, set_text_n; simpl; try reflexivity.
    destruct (set_path_keeps_contents fs p (Part000.file_t_default fs)) as [-> ->].
    reflexivity.
  - destruct c as [fs p | text | text n | name | index c]; simpl in Hc.
    + injection Hc as <-.
      destruct (set_path_keeps_contents fs p h) as [-> ->]. exact IH.
    + injection Hc as <-. reflexivity.
    + destruct (n <=? _)%N; [injection Hc as <- | discriminate]. reflexivity.
    + injection Hc as <-. exact IH.
    + unfold store_at in Hc.
      destruct (_ && _); [injection Hc as <- | discriminate].
      simpl. now rewrite string_store_length.
Qed.

Lemma last_cons_any_default {A} (x : A) (l : list A) (d d' : A) :
  List.last (x :: l) d = List.last (x :: l) d'.
Proof.
  revert x; induction l as [|y l IH]; intros x; [reflexivity|].
  change (List.last (y :: l) d = List.last (y :: l) d'). apply IH.
Qed.

Lemma set_text_each_FileHandle (bufs : list string) (h : file_t) :
  FileHandle h -> FileHandle (set_text_each bufs h).
Proof.
  revert h; induction bufs as [|b bufs IH]; intros h Hh; simpl; [exact Hh|].
  apply IH. now apply (mutated h (call_set_text b)).
Qed.

Lemma set_text_each_reads (bufs : list string) (h : file_t) :
  get_text (set_text_each bufs h) = List.last bufs (get_text h)
  /\ get_path_fs (set_text_each bufs h) = get_path_fs h.
Proof.
  revert h; induction bufs as [|b bufs IH]; intros h; simpl; [split; reflexivity|].
  destruct (IH (set_text b h)) as [Ht Hp].
  unfold set_text_each in *. simpl fold_left. rewrite Ht, Hp. split; [|reflexivity].
  destruct bufs as [|b' bufs]; [reflexivity|].
  change (List.last (b :: b' :: bufs) (get_text h))
    with (List.last (b' :: bufs) (get_text h)).
  apply last_cons_any_default.
Qed.

(** C3: a [set_path] whose argument, with its final segment removed, does
    not exist changes nothing: the handle, and so its path, is as before. *)
Theorem set_path_missing_parent_noop (fs : filesystem) (h : file_t) (new_path : path) :
  fs_exists fs (remove_filename new_path) = false ->
  set_path fs new_path h = h
  /\ get_path_fs (set_path fs new_path h) = get_path_fs h.
Proof.
  intros Hparent. unfold set_path. rewrite Hparent. split; reflexivity.
Qed.

(** On the sample tree: /nowhere/ is missing, the handle keeps notes.txt. *)
Lemma set_path_missing_parent_noop_witness :
  let h := Part000.file_t_path Samples.home "/home/user/notes.txt" in
  fs_exists Samples.home (remove_filename "/nowhere/x.txt") = false
  /\ get_path_fs h = "/home/user/notes.txt"
  /\ get_path_fs (set_path Samples.home "/nowhere/x.txt" h) = "/home/user/notes.txt".
Proof.
  split; [reflexivity|]. split; [reflexivity|].
  rewrite (proj2 (set_path_missing_parent_noop Samples.home _ "/nowhere/x.txt" eq_refl)).
  reflexivity.
Defined.

(** C4: when the argument with its final segment removed exists, [set_path]
    on an existing directory D stores D / "temporary_file.txt", and on
    anything that is not a directory stores the argument verbatim. *)
Theorem set_path_resolves (fs : filesystem) (h : file_t) (new_path : path) :
  fs_exists fs (remove_filename new_path) = true ->
  (fs_is_directory fs new_path = true ->
   get_path_fs (set_path fs new_path h) = new_path // "temporary_file.txt")
  /\ (fs_is_directory fs new_path = false ->
      get_path_fs (set_path fs new_path h) = new_path).
Proof.
  intros Hparent. unfold set_path, get_path_fs. rewrite Hparent.
  split; intros ->; reflexivity.
Qed.

(** On the sample tree: docs is a directory, new.txt is not there yet. *)
Lemma set_path_resolves_witness :
  get_path_fs (set_path Samples.home "/home/user/docs" file_t_members)
    = "/home/user/docs/temporary_file.txt"
  /\ get_path_fs (set_path Samples.home "/home/user/new.txt" file_t_members)
    = "/home/user/new.txt".
Proof.
  split.
  - exact (proj1 (set_path_resolves Samples.home file_t_members "/home/user/docs" eq_refl)
             eq_refl).
  - exact (proj2 (set_path_resolves Samples.home file_t_members "/home/user/new.txt" eq_refl)
             eq_refl).
Defined.

(** C6: after any sequence of [set_text] calls on any handle, empty buffers
    included, [size()] is the length of the contents; the contents are the
    last buffer passed (the old ones if none was), and the path is
    untouched. [set_text] is a total function: there is no exceptional
    outcome. *)
Theorem set_text_each_size_consistent (h : file_t) (bufs : list string) :
  FileHandle h ->
  let h' := set_text_each bufs h in
  size h' = N.of_nat (String.length (get_text h'))
  /\ get_text h' = List.last bufs (get_text h)
  /\ get_path_fs h' = get_path_fs h.
Proof.
  intros Hh h'. split.
  - apply FileHandle_size_consistent. now apply set_text_each_FileHandle.
  - apply set_text_each_reads.
Qed.

(** A handle of src/tools.hpp, set to "abc" and then to the empty buffer. *)
Lemma set_text_each_size_consistent_witness :
  let h := set_text_each ["abc"; ""] (Tools.construct Samples.home (args_path "/nowhere/x")) in
  size h = 0%N /\ get_text h = "".
Proof.
  destruct (set_text_each_size_consistent
              (Tools.construct Samples.home (args_path "/nowhere/x")) ["abc"; ""]
              (constructed_tools _ _)) as (Hsize & Htext & _).
  split; [rewrite Hsize, Htext | rewrite Htext]; reflexivity.
Defined.

(** C7, as the specification has it, fails: /home/user//new.txt names a
    file to be created in the existing directory /home/user, and the
    handle built from it gives /home/user/new.txt as its path:
    [get_path] returns [path_.generic_string()], which writes one
    separator where the path has two. *)
Lemma construct_path_not_read_back :
  let fs := posix Samples.home in
  let p := "/home/user//new.txt" in
  fs_exists fs (remove_filename p) = true
  /\ fs_is_directory fs p = false
  /\ get_path (Tools.file_t_path_text fs p "payload") = "/home/user/new.txt"
  /\ get_path (Part000.file_t_path_text fs p "payload") = "/home/user/new.txt"
  /\ get_path (Tools.file_t_path_text fs p "payload") <> p
  /\ get_path (Part000.file_t_path_text fs p "payload") <> p.
Proof. repeat split; discriminate. Qed.

(** C7, amended: a handle built from a path whose parent exists and that
    is not a directory, and from a byte string, gives back the bytes and
    their number through [get_text] and [size], the path through
    [get_path_fs], and through [get_path] the generic-format string of
    the path, which is the path itself when it has no two separators in a
    row; so for the (path, string) and the (path, buffer, size)
    constructors of both snapshots. *)
Theorem construct_reads_back (fs : filesystem) (p : path) (bytes : string) :
  fs_exists fs (remove_filename p) = true ->
  fs_is_directory fs p = false ->
  reads_back (Tools.file_t_path_text fs p bytes) p bytes
  /\ reads_back (Tools.file_t_path_buf fs p bytes (N.of_nat (String.length bytes))) p bytes
  /\ reads_back (Part000.file_t_path_text fs p bytes) p bytes
  /\ reads_back (Part000.file_t_path_buf fs p bytes (N.of_nat (String.length bytes))) p bytes.
Proof.
  intros Hparent Hdir.
  unfold reads_back, Tools.file_t_path_text, Tools.file_t_path_buf,
    Part000.file_t_path_text, Part000.file_t_path_buf, set_text_n,
    get_path, get_path_fs, get_text, size, set_path.
  rewrite Hparent, Hdir, Nat2N.id, substring_all. simpl.
  pose proof (generic_string_single p). tauto.
Qed.

(** On the sample tree, for a file to be created in /home/user. *)
Lemma construct_reads_back_witness :
  reads_back (Part000.file_t_path_text Samples.home "/home/user/new.txt" "payload")
    "/home/user/new.txt" "payload".
Proof.
  exact (proj1 (proj2 (proj2
    (construct_reads_back Samples.home "/home/user/new.txt" "payload" eq_refl eq_refl)))).
Defined.

(** C10: for a path that does not exist or names a directory, [read_file]
    returns the handle [file_t()] builds (sentinel path in the working
    directory, no contents, size 0) and throws nothing. *)
Theorem read_file_missing_returns_default {O} (fs : filesystem) (p : path) (s : state O) :
  fs_exists fs p = false \/ fs_is_directory fs p = true ->
  (Tools.read_file fs p s = Val (Tools.file_t_default fs) s
   /\ is_default_handle fs (Tools.file_t_default fs))
  /\ (Part000.read_file fs p s = Val (Part000.file_t_default fs) s
      /\ is_default_handle fs (Part000.file_t_default fs)).
Proof.
  intros Hp.
  assert (Hguard : negb (fs_exists fs p) || fs_is_directory fs p = true).
  { destruct Hp as [-> | ->]; [reflexivity | apply orb_true_r]. }
  unfold Tools.read_file, Part000.read_file, is_default_handle.
  rewrite Hguard. repeat split.
Qed.

(** On the sample tree: gone.txt does not exist. *)
Lemma read_file_missing_returns_default_witness :
  Part000.read_file Samples.home "/home/user/gone.txt" (start tt)
    = Val (Part000.file_t_default Samples.home) (start tt)
  /\ get_path (Part000.file_t_default Samples.home) = "/home/user/temporary_file.txt".
Proof.
  split; [|reflexivity].
  exact (proj1 (proj2 (read_file_missing_returns_default Samples.home
                         "/home/user/gone.txt" (start tt) (or_introl eq_refl)))).
Defined.

(** C8, as the specification has it, fails: a path that no stream can open
    because nothing is there is read as the default handle and written as
    nothing, and no exception leaves [read_file] or [write_file]. *)
Lemma open_failure_of_missing_path_is_silent :
  fs_ifstream Samples.home "/nowhere/x.txt" = None
  /\ fs_ofstream Samples.home "/nowhere/x.txt" ios_app = false
  /\ thrown (Tools.read_file Samples.home "/nowhere/x.txt" (start tt)) = None
  /\ thrown (Part000.read_file Samples.home "/nowhere/x.txt" (start tt)) = None
  /\ Part000.write_file Samples.home "/nowhere/x.txt" "data" (start tt) = Val tt (start tt).
Proof. repeat split. Qed.

(** C8, amended: for a path that exists and is not a directory, a stream
    that fails to open makes [read_file] and [write_file] throw
    [std::ios_base::failure] with the message "Error: Cannot open file: "
    followed by the final segment of the path, the state being untouched;
    for a path that does not exist or names a directory nothing is thrown:
    [read_file] returns the default handle and [write_file] writes nothing. *)
Theorem open_failure_surfaced {O} (fs : filesystem) (p : path) (text : string)
    (s : state O) :
  (fs_exists fs p = true ->
   fs_is_directory fs p = false ->
   (fs_ifstream fs p = None ->
    Tools.read_file fs p s
      = Exc (ios_base_failure ("Error: Cannot open file: " +:+ filename p)) s
    /\ Part000.read_file fs p s
      = Exc (ios_base_failure ("Error: Cannot open file: " +:+ filename p)) s)
   /\ (fs_ofstream fs p ios_app = false ->
       Part000.write_file fs p text s
         = Exc (ios_base_failure ("Error: Cannot open file: " +:+ filename p)) s))
  /\ (fs_exists fs p = false \/ fs_is_directory fs p = true ->
      Tools.read_file fs p s = Val (Tools.file_t_default fs) s
      /\ Part000.read_file fs p s = Val (Part000.file_t_default fs) s
      /\ Part000.write_file fs p text s = Val tt s).
Proof.
  unfold Tools.read_file, Part000.read_file, Part000.write_file.
  rewrite !generic_string_filename. split.
  - intros Hex Hdir. rewrite Hex, Hdir. simpl. split.
    + intros ->. split; reflexivity.
    + intros ->. reflexivity.
  - intros Hp.
    assert (Hguard : negb (fs_exists fs p) || fs_is_directory fs p = true).
    { destruct Hp as [-> | ->]; [reflexivity | apply orb_true_r]. }
    rewrite Hguard. repeat split.
Qed.

(** On the sample tree: locked.bin exists and opens for no stream. *)
Lemma open_failure_surfaced_witness :
  Part000.read_file Samples.home "/home/user/locked.bin" (start tt)
    = Exc (ios_base_failure "Error: Cannot open file: locked.bin") (start tt)
  /\ Part000.write_file Samples.home "/home/user/locked.bin" "data" (start tt)
    = Exc (ios_base_failure "Error: Cannot open file: locked.bin") (start tt).
Proof.
  destruct (proj1 (open_failure_surfaced Samples.home "/home/user/locked.bin" "data"
                     (start tt)) eq_refl eq_refl) as [Hread Hwrite].
  split; [exact (proj2 (Hread eq_refl)) | exact (Hwrite eq_refl)].
Defined.

(** ** The constructors *)

Lemma append_nonempty (p q : path) : q <> EmptyString -> p // q <> EmptyString.
Proof.
  intros Hq. unfold append.
  destruct (is_absolute q); [exact Hq|].
  destruct (has_filename p); destruct p; simpl; try discriminate; exact Hq.
Qed.

(** In the later tools.hpp every constructor starts from [file_t()]: with a
    missing parent the path constructors build the default handle. *)
Lemma Part000_file_t_path_missing_parent (fs : filesystem) (p : path) :
  fs_exists fs (remove_filename p) = false ->
  Part000.file_t_path fs p = set_path fs p (Part000.file_t_default fs)
  /\ Part000.file_t_path fs p = Part000.file_t_default fs.
Proof.
  intros Hparent. split; [reflexivity|].
  unfold Part000.file_t_path, set_path. now rewrite Hparent.
Qed.

(** In src/tools.hpp the path constructors do not: with a missing parent
    the path stays empty, which the default path never is. *)
Lemma Tools_file_t_path_missing_parent (fs : filesystem) (p : path) :
  fs_exists fs (remove_filename p) = false ->
  get_path (Tools.file_t_path fs p) = EmptyString
  /\ get_path (set_path fs p (Tools.file_t_default fs)) <> EmptyString.
Proof.
  intros Hparent. unfold Tools.file_t_path, set_path. rewrite Hparent.
  split; [reflexivity|]. apply generic_string_nonempty. now apply append_nonempty.
Qed.

(** C5, on src/tools.hpp: built from a path whose parent is missing, the
    handle has the empty path, where default construction followed by the
    same [set_path] has the sentinel path; the later tools.hpp has the
    sentinel path both ways. *)
Theorem tools_file_t_path_skips_default :
  fs_exists Samples.home (remove_filename "/nowhere/x.txt") = false
  /\ get_path (Tools.file_t_path Samples.home "/nowhere/x.txt") = ""
  /\ get_path (Tools.file_t_path_text Samples.home "/nowhere/x.txt" "abc") = ""
  /\ get_path (set_path Samples.home "/nowhere/x.txt" (Tools.file_t_default Samples.home))
     = "/home/user/temporary_file.txt"
  /\ get_path (Part000.file_t_path Samples.home "/nowhere/x.txt")
     = "/home/user/temporary_file.txt".
Proof. repeat split. Qed.

(** ** The token table *)

Lemma to_string_inj (a b : Z) : to_string a = to_string b -> a = b.
Proof. unfold to_string. apply (inj pretty). Qed.

Lemma token_table_from_below (entries : list directory_entry) (num m : Z) :
  (m < num)%Z -> token_table_from num entries !! to_string m = None.
Proof.
  revert num; induction entries as [|entry rest IH]; intros num Hlt; simpl.
  - apply lookup_empty.
  - rewrite lookup_insert_ne.
    + apply IH. lia.
    + intros Heq. apply to_string_inj in Heq. lia.
Qed.

(** The table holds the tokens of the entries, each mapped to the kind and
    the name of its entry, and nothing else. *)
Lemma token_table_from_lookup (entries : list directory_entry) (num : Z)
    (tok : string) (v : bool * string) :
  token_table_from num entries !! tok = Some v <->
  exists (k : nat) (entry : directory_entry),
    entries !! k = Some entry
    /\ tok = to_string (num + Z.of_nat k)
    /\ v = (entry_is_directory entry, filename (entry_path entry)).
Proof.
  revert num; induction entries as [|entry rest IH]; intros num; simpl.
  - rewrite lookup_empty. split; [discriminate|].
    intros (k & e & Hk & _). destruct k; discriminate.
  - destruct (decide (tok = to_string num)) as [-> | Hne].
    + rewrite lookup_insert_eq. split.
      * intros [= <-]. exists 0%nat, entry. repeat split.
        now rewrite Z.add_0_r.
      * intros (k & e & Hk & Htok & ->).
        apply to_string_inj in Htok.
        assert (k = 0%nat) as -> by lia. simpl in Hk. now injection Hk as <-.
    + rewrite lookup_insert_ne by congruence. rewrite IH. split.
      * intros (k & e & Hk & -> & ->). exists (S k), e. repeat split; [exact Hk|].
        f_equal. lia.
      * intros (k & e & Hk & -> & ->). destruct k as [|k].
        -- exfalso. apply Hne. now rewrite Z.add_0_r.
        -- exists k, e. repeat split; [exact Hk|]. f_equal. lia.
Qed.

(** Tokens "1" ... "n" and no other: the domain of the table of n entries. *)
Lemma token_table_dom (entries : list directory_entry) (tok : string) :
  is_Some (token_table entries !! tok) <->
  exists k : Z, (1 <= k <= Z.of_nat (length entries))%Z /\ tok = to_string k.
Proof.
  unfold token_table. split.
  - intros [v Hv]. apply token_table_from_lookup in Hv as (k & e & Hk & -> & _).
    exists (1 + Z.of_nat k)%Z. split; [|reflexivity].
    apply lookup_lt_Some in Hk. lia.
  - intros (k & Hk & ->).
    destruct (lookup_lt_is_Some_2 entries (Z.to_nat (k - 1))) as [e He]; [lia|].
    exists (entry_is_directory e, filename (entry_path e)).
    apply token_table_from_lookup. exists (Z.to_nat (k - 1)), e.
    repeat split; [exact He|]. f_equal. lia.
Qed.

Ltac run_io :=
  unfold bind, ret, print_text, console_clear, write_cout, get_self, put_self;
  cbn [cout fs_log self].

(** src/tools.hpp: the range-for writes the tokens of the listing over
    whatever [dirs_] held. *)
Lemma Tools_print_entries_table (entries : list directory_entry) (num : Z)
    (s : state Tools.monitoring) :
  exists s', Tools.print_entries entries num s = Val tt s'
    /\ Tools.dirs_ (self s') = token_table_from num entries ∪ Tools.dirs_ (self s)
    /\ fs_log s' = fs_log s.
Proof.
  revert num s; induction entries as [|entry rest IH]; intros num s.
  - exists s. repeat split. simpl. now rewrite (left_id_L ∅ (∪)).
  - cbn [Tools.print_entries token_table_from].
    rewrite !generic_string_filename.
    destruct (entry_is_directory entry); unfold Tools.dirs_assign; run_io;
      match goal with
      | |- context [Tools.print_entries rest ?n ?st] =>
          destruct (IH n st) as (s' & -> & Hd & Hl)
      end;
      exists s'; (split; [reflexivity|]); (split; [|exact Hl]);
      rewrite Hd; cbn [self Tools.dirs_];
      rewrite <- insert_union_l;
      symmetry; apply insert_union_r, token_table_from_below; lia.
Qed.

Lemma Part000_print_entries_table (entries : list directory_entry) (num : Z)
    (s : state Part000.monitoring) :
  exists s', Part000.print_entries entries num s = Val tt s'
    /\ Part000.dirs_ (self s') = token_table_from num entries ∪ Part000.dirs_ (self s)
    /\ fs_log s' = fs_log s.
Proof.
  revert num s; induction entries as [|entry rest IH]; intros num s.
  - exists s. repeat split. simpl. now rewrite (left_id_L ∅ (∪)).
  - cbn [Part000.print_entries token_table_from].
    rewrite !generic_string_filename.
    destruct (entry_is_directory entry); unfold Part000.dirs_assign; run_io;
      match goal with
      | |- context [Part000.print_entries rest ?n ?st] =>
          destruct (IH n st) as (s' & -> & Hd & Hl)
      end;
      exists s'; (split; [reflexivity|]); (split; [|exact Hl]);
      rewrite Hd; cbn [self Part000.dirs_];
      rewrite <- insert_union_l;
      symmetry; apply insert_union_r, token_table_from_below; lia.
Qed.

Lemma Part001_list_entries_table (entries : list directory_entry) (num : Z)
    (dirs : gmap string (bool * string)) (s : state Part001.filesystem_monitoring) :
  exists s', Part001.list_entries entries num dirs s
             = Val (token_table_from num entries ∪ dirs) s'
    /\ fs_log s' = fs_log s.
Proof.
  revert num dirs s; induction entries as [|entry rest IH]; intros num dirs s.
  - exists s. split; [|reflexivity]. simpl. now rewrite (left_id_L ∅ (∪)).
  - cbn [Part001.list_entries token_table_from].
    rewrite !generic_string_filename.
    destruct (entry_is_directory entry); run_io;
      match goal with
      | |- context [Part001.list_entries rest ?n ?d ?st] =>
          destruct (IH n d st) as (s' & -> & Hl)
      end;
      exists s'; (split; [|exact Hl]); f_equal;
      rewrite <- insert_union_l;
      symmetry; apply insert_union_r, token_table_from_below; lia.
Qed.

(** src/tools.hpp: a render adds the tokens of the listing to the table of
    the renders before it. *)
Lemma Tools_print_filesystem_accumulates (fs : filesystem) (p : string)
    (entries : list directory_entry) (s : state Tools.monitoring) :
  fs_directory_iterator fs p = Some entries ->
  exists s', Tools.print_filesystem fs p s = Val tt s'
    /\ Tools.dirs_ (self s') = token_table entries ∪ Tools.dirs_ (self s)
    /\ fs_log s' = fs_log s.
Proof.
  intros Hls. unfold Tools.print_filesystem. rewrite Hls. run_io.
  match goal with
  | |- context [Tools.print_entries entries ?n ?st] =>
      destruct (Tools_print_entries_table entries n st) as (s' & -> & Hd & Hl)
  end.
  exists s'. repeat split; assumption.
Qed.

(** The later tools.hpp: a render leaves exactly the tokens of the listing. *)
Lemma Part000_print_filesystem_rebuilds (fs : filesystem) (p : string)
    (entries : list directory_entry) (s : state Part000.monitoring) :
  fs_directory_iterator fs p = Some entries ->
  exists s', Part000.print_filesystem fs p s = Val tt s'
    /\ Part000.dirs_ (self s') = token_table entries
    /\ fs_log s' = fs_log s.
Proof.
  intros Hls. unfold Part000.print_filesystem, Part000.dirs_clear. rewrite Hls. run_io.
  match goal with
  | |- context [Part000.print_entries entries ?n ?st] =>
      destruct (Part000_print_entries_table entries n st) as (s' & -> & Hd & Hl)
  end.
  exists s'. repeat split; [|exact Hl].
  rewrite Hd. cbn [self Part000.dirs_]. now rewrite (right_id_L ∅ (∪)).
Qed.

(** console_tools.hpp: a render builds exactly the tokens of the listing. *)
Lemma Part001_render_rebuilds (fs : filesystem) (p : path)
    (entries : list directory_entry) (s : state Part001.filesystem_monitoring) :
  fs_directory_iterator fs (generic_string p) = Some entries ->
  exists s', Part001.render fs p s = Val (token_table entries) s'
    /\ fs_log s' = fs_log s.
Proof.
  intros Hls. unfold Part001.render. rewrite Hls. run_io.
  match goal with
  | |- context [Part001.list_entries entries ?n ?d ?st] =>
      destruct (Part001_list_entries_table entries n d st) as (s' & -> & Hl)
  end.
  exists s'. split; [|exact Hl]. now rewrite (right_id_L ∅ (∪)).
Qed.

(** ** Numeric tokens against the menu *)

Lemma pretty_N_char_digit (x : N) : is_digit (pretty_N_char x) = true.
Proof.
  unfold pretty_N_char.
  repeat (match goal with |- context [match ?y with _ => _ end] => destruct y end;
          try reflexivity).
Qed.

Lemma pretty_N_go_head (x : N) :
  forall s, (0 < x)%N ->
  exists c r, pretty_N_go x s = String c r /\ is_digit c = true.
Proof.
  induction x as [x IH] using (well_founded_induction N.lt_wf_0).
  intros s Hx. rewrite pretty_N_go_step by exact Hx.
  destruct (N.eq_dec (x `div` 10)%N 0%N) as [H0 | Hne].
  - rewrite H0, pretty_N_go_0. eexists _, _. split; [reflexivity|].
    apply pretty_N_char_digit.
  - apply IH; [apply N.div_lt; lia | now apply N.neq_0_lt_0].
Qed.

(** A number from 1 on prints with a leading digit. *)
Lemma to_string_head (k : Z) :
  (1 <= k)%Z -> exists c r, to_string k = String c r /\ is_digit c = true.
Proof.
  intros Hk. destruct k as [|x|x]; try lia.
  unfold to_string, pretty, pretty_Z, pretty, pretty_positive, pretty, pretty_N.
  destruct (decide (N.pos x = 0%N)); [discriminate|].
  apply pretty_N_go_head. lia.
Qed.

(** The tokens "0", "b", "c" and "d" are no token of a listing. *)
Lemma numeric_token_not_reserved (k : Z) : (1 <= k)%Z -> reserved (to_string k) = false.
Proof.
  intros Hk. unfold reserved.
  assert (H0 : String.eqb (to_string k) "0" = false).
  { apply String.eqb_neq. intros Heq.
    change "0" with (to_string 0) in Heq. apply to_string_inj in Heq. lia. }
  rewrite H0.
  destruct (to_string_head k Hk) as (c & r & -> & Hc).
  assert (Hletter : forall x, is_digit x = false ->
                    String.eqb (String c r) (String x EmptyString) = false).
  { intros x Hx. simpl. destruct (Ascii.eqb_spec c x) as [->|_]; [congruence|reflexivity]. }
  rewrite !Hletter by reflexivity. reflexivity.
Qed.

Lemma listed_token_not_reserved (entries : list directory_entry) (tok : string) :
  is_Some (token_table entries !! tok) -> reserved tok = false.
Proof.
  intros Hsome. apply token_table_dom in Hsome as (k & Hk & ->).
  apply numeric_token_not_reserved. lia.
Qed.

Lemma reserved_false (tok : string) :
  reserved tok = false ->
  String.eqb tok "0" = false /\ String.eqb tok "b" = false
  /\ String.eqb tok "c" = false /\ String.eqb tok "d" = false.
Proof.
  unfold reserved. intros H.
  repeat (apply orb_false_elim in H as [H ?]). auto.
Qed.

(** ** One pass of the browser *)

Lemma Tools_print_menu_runs (ps : string) (s : state Tools.monitoring) :
  exists s', Tools.print_menu ps s = Val tt s' /\ self s' = self s /\ fs_log s' = fs_log s.
Proof. unfold Tools.print_menu. run_io. eexists. repeat split. Qed.

Lemma Part000_print_menu_runs (ps : string) (s : state Part000.monitoring) :
  exists s', Part000.print_menu ps s = Val tt s' /\ self s' = self s /\ fs_log s' = fs_log s.
Proof. unfold Part000.print_menu. run_io. eexists. repeat split. Qed.

Lemma Part001_menu_runs (p : path) (s : state Part001.filesystem_monitoring) :
  exists s', Part001.menu p s = Val tt s' /\ fs_log s' = fs_log s.
Proof. unfold Part001.menu. run_io. eexists. repeat split. Qed.

(** With a listing that succeeds, the pass is the [if] chain run on the
    table the listing left. *)
Lemma Tools_loop_body_listed (r : interaction) (p : path)
    (entries : list directory_entry) (s : state Tools.monitoring) :
  fs_directory_iterator (fs_listing r) (generic_string p) = Some entries ->
  exists s1, Tools.loop_body r p s = Tools.resolve r p (generic_string p) s1
    /\ Tools.dirs_ (self s1) = token_table entries ∪ Tools.dirs_ (self s)
    /\ fs_log s1 = fs_log s.
Proof.
  intros Hls. unfold Tools.loop_body, bind.
  destruct (Tools_print_filesystem_accumulates _ _ _ s Hls) as (s1 & -> & Hd & Hl).
  destruct (Tools_print_menu_runs (generic_string p) s1) as (s2 & -> & Hself & Hl2).
  exists s2. split; [reflexivity|]. rewrite Hself, Hl2. auto.
Qed.

Lemma Part000_loop_body_listed (r : interaction) (p : path)
    (entries : list directory_entry) (s : state Part000.monitoring) :
  fs_directory_iterator (fs_listing r) (generic_string p) = Some entries ->
  exists s1, Part000.loop_body r p s = Part000.resolve r p (generic_string p) s1
    /\ Part000.dirs_ (self s1) = token_table entries
    /\ fs_log s1 = fs_log s.
Proof.
  intros Hls. unfold Part000.loop_body, bind.
  destruct (Part000_print_filesystem_rebuilds _ _ _ s Hls) as (s1 & -> & Hd & Hl).
  destruct (Part000_print_menu_runs (generic_string p) s1) as (s2 & -> & Hself & Hl2).
  exists s2. split; [reflexivity|]. rewrite Hself, Hl2. auto.
Qed.

Lemma Part001_loop_body_listed (r : interaction) (p : path)
    (entries : list directory_entry) (s : state Part001.filesystem_monitoring) :
  fs_directory_iterator (fs_listing r) (generic_string p) = Some entries ->
  exists s1, Part001.loop_body r p s = Part001.resolve r p (token_table entries) s1
    /\ fs_log s1 = fs_log s.
Proof.
  intros Hls. unfold Part001.loop_body, bind.
  destruct (Part001_render_rebuilds _ _ _ s Hls) as (s1 & -> & Hl).
  destruct (Part001_menu_runs p s1) as (s2 & -> & Hl2).
  exists s2. split; [reflexivity|]. congruence.
Qed.

(** C9: whatever the current path, once the listing is on the screen the
    token "0" ends the pass with [break], and [get_file_path] returns the
    empty string; so in the three snapshots. *)
Theorem select_zero_cancels (r : interaction) (p : path)
    (script : list interaction) :
  in_opt r = "0" ->
  is_Some (fs_directory_iterator (fs_listing r) (generic_string p)) ->
  (forall s, returned (Tools.loop_body r p s) = Some Break
             /\ returned (Tools.browse (r :: script) p s) = Some (Some ""))
  /\ (forall s, returned (Part000.loop_body r p s) = Some Break
                /\ returned (Part000.browse (r :: script) p s) = Some (Some ""))
  /\ (forall s, returned (Part001.loop_body r p s) = Some Break
                /\ returned (Part001.browse (r :: script) p s) = Some (Some "")).
Proof.
  intros Hopt [entries Hls]. split; [|split]; intros s.
  - destruct (Tools_loop_body_listed r p entries s Hls) as (s1 & Hbody & _).
    assert (Hbreak : Tools.loop_body r p s = Val Break s1).
    { rewrite Hbody. unfold Tools.resolve. now rewrite Hopt. }
    split; [now rewrite Hbreak|].
    cbn [Tools.browse]. unfold bind. now rewrite Hbreak.
  - destruct (Part000_loop_body_listed r p entries s Hls) as (s1 & Hbody & _).
    assert (Hbreak : Part000.loop_body r p s = Val Break s1).
    { rewrite Hbody. unfold Part000.resolve. now rewrite Hopt. }
    split; [now rewrite Hbreak|].
    cbn [Part000.browse]. unfold bind. now rewrite Hbreak.
  - destruct (Part001_loop_body_listed r p entries s Hls) as (s1 & Hbody & _).
    assert (Hbreak : Part001.loop_body r p s = Val Break s1).
    { rewrite Hbody. unfold Part001.resolve. now rewrite Hopt. }
    split; [now rewrite Hbreak|].
    cbn [Part001.browse]. unfold bind. now rewrite Hbreak.
Qed.

(** On the sample tree: "0" typed at the first menu. *)
Lemma select_zero_cancels_witness :
  returned (Part000.get_file_path Samples.home
              [Samples.types Samples.home "0"] (start Part000.monitoring_default))
  = Some (Some "").
Proof.
  exact (proj2 (proj1 (proj2
    (select_zero_cancels (Samples.types Samples.home "0") "/home/user" []
       eq_refl (mk_is_Some _ _ eq_refl)))
    (start Part000.monitoring_default))).
Defined.

(** ** Selecting a file that is gone *)

Lemma string_app_length (a b : string) :
  String.length (a +:+ b) = (String.length a + String.length b)%nat.
Proof. induction a as [|c a IH]; simpl; [reflexivity | now rewrite IH]. Qed.

(** Appending a relative, non-empty name yields another path. *)
Lemma append_name_differs (p : path) (name : string) :
  name <> EmptyString -> is_absolute name = false -> p // name <> p.
Proof.
  intros Hne Hrel Heq. apply (f_equal String.length) in Heq.
  unfold append in Heq. rewrite Hrel in Heq.
  destruct name as [|c name]; [congruence|].
  destruct (has_filename p); rewrite ?string_app_length in Heq; simpl in Heq; lia.
Qed.

Ltac use_lookup H :=
  match type of H with
  | _ = ?v =>
      match goal with
      | |- context [match ?x with Some _ => _ | None => _ end] =>
          replace x with v by (symmetry; exact H)
      end
  end.

Lemma Tools_resolve_missing_file (r : interaction) (p : path) (ps name : string)
    (s : state Tools.monitoring) :
  reserved (in_opt r) = false ->
  Tools.dirs_ (self s) !! in_opt r = Some (false, name) ->
  fs_exists (fs_after r) (generic_string (p // name)) = false ->
  Tools.resolve r p ps s = Val (Continue (p // name)) (told_missing s).
Proof.
  intros Hres Htok Hgone. apply reserved_false in Hres as (H0 & Hb & Hc & _).
  unfold Tools.resolve. rewrite H0, Hb, Hc. run_io.
  use_lookup Htok. cbn. rewrite Hgone. reflexivity.
Qed.

Lemma Part000_resolve_missing_file (r : interaction) (p : path) (ps name : string)
    (s : state Part000.monitoring) :
  reserved (in_opt r) = false ->
  Part000.dirs_ (self s) !! in_opt r = Some (false, name) ->
  fs_exists (fs_after r) (generic_string (p // name)) = false ->
  Part000.resolve r p ps s = Val (Continue (p // name)) (told_missing s).
Proof.
  intros Hres Htok Hgone. apply reserved_false in Hres as (H0 & Hb & Hc & Hd).
  unfold Part000.resolve. rewrite H0, Hb, Hc, Hd. run_io.
  use_lookup Htok. cbn. rewrite Hgone. reflexivity.
Qed.

Lemma Part001_resolve_missing_file (r : interaction) (p : path) (name : string)
    (dirs : gmap string (bool * string)) (s : state Part001.filesystem_monitoring) :
  reserved (in_opt r) = false ->
  dirs !! in_opt r = Some (false, name) ->
  fs_exists (fs_after r) (generic_string (p // name)) = false ->
  Part001.resolve r p dirs s = Val (Continue (p // name)) (told_missing s).
Proof.
  intros Hres Htok Hgone. apply reserved_false in Hres as (H0 & Hb & Hc & _).
  unfold Part001.resolve. rewrite H0, Hb, Hc. run_io.
  use_lookup Htok. cbn. rewrite Hgone. reflexivity.
Qed.

(** In the three snapshots, picking a listed file that no longer exists
    prints the message and carries on with the path of that file as the
    current path. *)
Lemma missing_file_becomes_current_path (r : interaction) (p : path)
    (entries : list directory_entry) (name : string) :
  fs_directory_iterator (fs_listing r) (generic_string p) = Some entries ->
  token_table entries !! in_opt r = Some (false, name) ->
  fs_exists (fs_after r) (generic_string (p // name)) = false ->
  (forall s, exists s1, Tools.loop_body r p s = Val (Continue (p // name)) (told_missing s1))
  /\ (forall s, exists s1,
        Part000.loop_body r p s = Val (Continue (p // name)) (told_missing s1))
  /\ (forall s, exists s1,
        Part001.loop_body r p s = Val (Continue (p // name)) (told_missing s1)).
Proof.
  intros Hls Htok Hgone.
  assert (Hres : reserved (in_opt r) = false).
  { apply (listed_token_not_reserved entries). rewrite Htok. eauto. }
  split; [|split]; intros s.
  - destruct (Tools_loop_body_listed r p entries s Hls) as (s1 & -> & Hd & _).
    exists s1. apply Tools_resolve_missing_file; try assumption.
    rewrite Hd. rewrite lookup_union_l'; [exact Htok | rewrite Htok; eauto].
  - destruct (Part000_loop_body_listed r p entries s Hls) as (s1 & -> & Hd & _).
    exists s1. apply Part000_resolve_missing_file; try assumption.
    now rewrite Hd.
  - destruct (Part001_loop_body_listed r p entries s Hls) as (s1 & -> & _).
    exists s1. now apply Part001_resolve_missing_file.
Qed.

(** C1, on the code: in /home/user the user picks "1", notes.txt, which
    was deleted after the listing. Each snapshot prints the message and
    continues with /home/user/notes.txt as current path, not /home/user;
    the next pass lists that path and [get_file_path] ends by the
    exception of the directory iterator, "0" being never read. *)
Theorem deleted_file_moves_current_path :
  let after := [Samples.pick_deleted_file; Samples.types Samples.home_without_notes "0"] in
  (returned (Tools.loop_body Samples.pick_deleted_file "/home/user"
               (start Tools.monitoring_default))
     = Some (Continue "/home/user/notes.txt")
   /\ thrown (Tools.get_file_path Samples.home after (start Tools.monitoring_default))
     = Some (filesystem_error "/home/user/notes.txt"))
  /\ (returned (Part000.loop_body Samples.pick_deleted_file "/home/user"
                  (start Part000.monitoring_default))
        = Some (Continue "/home/user/notes.txt")
      /\ thrown (Part000.get_file_path Samples.home after (start Part000.monitoring_default))
        = Some (filesystem_error "/home/user/notes.txt"))
  /\ (returned (Part001.loop_body Samples.pick_deleted_file "/home/user" (start tt))
        = Some (Continue "/home/user/notes.txt")
      /\ thrown (Part001.get_file_path Samples.home after (start tt))
        = Some (filesystem_error "/home/user/notes.txt")).
Proof. vm_compute. repeat split. Qed.

(** ** Tokens of an earlier listing *)

(** C2, on src/tools.hpp: the user goes from /home/user (three entries)
    into docs (one entry); the table after the second listing still maps
    "2" and "3" to entries of /home/user. The later tools.hpp, on the same
    session, holds the token "1" alone. *)
Theorem tools_table_keeps_earlier_tokens :
  let session := [Samples.types Samples.home "2"; Samples.types Samples.home "x"] in
  let tools := final (Tools.get_file_path Samples.home session
                        (start Tools.monitoring_default)) in
  let part000 := final (Part000.get_file_path Samples.home session
                          (start Part000.monitoring_default)) in
  fs_directory_iterator Samples.home "/home/user/docs"
    = Some [{| entry_path := "/home/user/docs/readme.md"; entry_is_directory := false |}]
  /\ Tools.dirs_ (self tools) !! "1" = Some (false, "readme.md")
  /\ Tools.dirs_ (self tools) !! "2" = Some (true, "docs")
  /\ Tools.dirs_ (self tools) !! "3" = Some (false, "locked.bin")
  /\ map_to_list (Part000.dirs_ (self part000)) = [("1", (false, "readme.md"))].
Proof. vm_compute. repeat split. Qed.

(** * Further properties of the browser *)

Lemma eqb_refl_true (a : string) : String.eqb a a = true.
Proof. apply String.eqb_refl. Qed.

(** The pass that goes into a listed directory, for the three snapshots. *)
Lemma directory_token_enters (r : interaction) (p : path)
    (entries : list directory_entry) (name : string) :
  fs_directory_iterator (fs_listing r) (generic_string p) = Some entries ->
  token_table entries !! in_opt r = Some (true, name) ->
  (forall s, exists s1,
      Tools.loop_body r p s = Val (Continue (p // name)) s1 /\ fs_log s1 = fs_log s)
  /\ (forall s, exists s1,
        Part000.loop_body r p s = Val (Continue (p // name)) s1 /\ fs_log s1 = fs_log s)
  /\ (forall s, exists s1,
        Part001.loop_body r p s = Val (Continue (p // name)) s1 /\ fs_log s1 = fs_log s).
Proof.
  intros Hls Htok.
  assert (Hres : reserved (in_opt r) = false).
  { apply (listed_token_not_reserved entries). rewrite Htok. eauto. }
  apply reserved_false in Hres as (H0 & Hb & Hc & Hd).
  split; [|split]; intros s.
  - destruct (Tools_loop_body_listed r p entries s Hls) as (s1 & -> & Hdirs & Hlog).
    exists s1. split; [|exact Hlog].
    assert (Hin : Tools.dirs_ (self s1) !! in_opt r = Some (true, name)).
    { rewrite Hdirs, lookup_union_l'; [exact Htok | rewrite Htok; eauto]. }
    unfold Tools.resolve. rewrite H0, Hb, Hc. run_io. use_lookup Hin. reflexivity.
  - destruct (Part000_loop_body_listed r p entries s Hls) as (s1 & -> & Hdirs & Hlog).
    exists s1. split; [|exact Hlog].
    assert (Hin : Part000.dirs_ (self s1) !! in_opt r = Some (true, name))
      by now rewrite Hdirs.
    unfold Part000.resolve. rewrite H0, Hb, Hc, Hd. run_io. use_lookup Hin. reflexivity.
  - destruct (Part001_loop_body_listed r p entries s Hls) as (s1 & -> & Hlog).
    exists s1. split; [|exact Hlog].
    unfold Part001.resolve. rewrite H0, Hb, Hc. run_io. use_lookup Htok. reflexivity.
Qed.

(** A token of the listing mapped to a directory: in the three snapshots
    the loop goes on from the current path with the name of the entry
    appended, whatever input follows, and nothing is written. *)
Theorem listed_directory_is_entered (r : interaction) (p : path)
    (entries : list directory_entry) (name : string) (script : list interaction) :
  fs_directory_iterator (fs_listing r) (generic_string p) = Some entries ->
  token_table entries !! in_opt r = Some (true, name) ->
  (forall s, exists s1,
      Tools.browse (r :: script) p s = Tools.browse script (p // name) s1
      /\ fs_log s1 = fs_log s)
  /\ (forall s, exists s1,
        Part000.browse (r :: script) p s = Part000.browse script (p // name) s1
        /\ fs_log s1 = fs_log s)
  /\ (forall s, exists s1,
        Part001.browse (r :: script) p s = Part001.browse script (p // name) s1
        /\ fs_log s1 = fs_log s).
Proof.
  intros Hls Htok.
  destruct (directory_token_enters r p entries name Hls Htok) as (HT & H0 & H1).
  split; [|split]; intros s.
  - destruct (HT s) as (s1 & Hbody & Hlog). exists s1. split; [|exact Hlog].
    cbn [Tools.browse]. unfold bind at 1. now rewrite Hbody.
  - destruct (H0 s) as (s1 & Hbody & Hlog). exists s1. split; [|exact Hlog].
    cbn [Part000.browse]. unfold bind at 1. now rewrite Hbody.
  - destruct (H1 s) as (s1 & Hbody & Hlog). exists s1. split; [|exact Hlog].
    cbn [Part001.browse]. unfold bind at 1. now rewrite Hbody.
Qed.

(** On the sample tree: "2" is docs; then "0". *)
Lemma listed_directory_is_entered_witness :
  exists s1,
    Part001.browse [Samples.types Samples.home "2"; Samples.types Samples.home "0"]
      "/home/user" (start tt)
    = Part001.browse [Samples.types Samples.home "0"] "/home/user/docs" s1
    /\ fs_log s1 = [].
Proof.
  exact (proj2 (proj2 (listed_directory_is_entered (Samples.types Samples.home "2")
                         "/home/user" _ "docs" [Samples.types Samples.home "0"]
                         eq_refl eq_refl)) (start tt)).
Defined.

(** A token of the listing mapped to a file that exists when the browser
    looks: [get_file_path] returns the current path with the name of the
    file appended, as its generic-format string, whatever input follows. *)
Theorem listed_file_is_returned (r : interaction) (p : path)
    (entries : list directory_entry) (name : string) (script : list interaction) :
  fs_directory_iterator (fs_listing r) (generic_string p) = Some entries ->
  token_table entries !! in_opt r = Some (false, name) ->
  fs_exists (fs_after r) (generic_string (p // name)) = true ->
  (forall s, returned (Tools.browse (r :: script) p s)
             = Some (Some (generic_string (p // name))))
  /\ (forall s, returned (Part000.browse (r :: script) p s)
                = Some (Some (generic_string (p // name))))
  /\ (forall s, returned (Part001.browse (r :: script) p s)
                = Some (Some (generic_string (p // name)))).
Proof.
  intros Hls Htok Hthere.
  assert (Hres : reserved (in_opt r) = false).
  { apply (listed_token_not_reserved entries). rewrite Htok. eauto. }
  apply reserved_false in Hres as (H0 & Hb & Hc & Hd).
  split; [|split]; intros s.
  - cbn [Tools.browse]. unfold bind at 1.
    destruct (Tools_loop_body_listed r p entries s Hls) as (s1 & -> & Hdirs & _).
    assert (Hin : Tools.dirs_ (self s1) !! in_opt r = Some (false, name)).
    { rewrite Hdirs, lookup_union_l'; [exact Htok | rewrite Htok; eauto]. }
    unfold Tools.resolve. rewrite H0, Hb, Hc. run_io.
    use_lookup Hin. cbn. rewrite Hthere. reflexivity.
  - cbn [Part000.browse]. unfold bind at 1.
    destruct (Part000_loop_body_listed r p entries s Hls) as (s1 & -> & Hdirs & _).
    assert (Hin : Part000.dirs_ (self s1) !! in_opt r = Some (false, name))
      by now rewrite Hdirs.
    unfold Part000.resolve. rewrite H0, Hb, Hc, Hd. run_io.
    use_lookup Hin. cbn. rewrite Hthere. reflexivity.
  - cbn [Part001.browse]. unfold bind at 1.
    destruct (Part001_loop_body_listed r p entries s Hls) as (s1 & -> & _).
    unfold Part001.resolve. rewrite H0, Hb, Hc. run_io.
    use_lookup Htok. cbn. rewrite Hthere. reflexivity.
Qed.

(** On the sample tree: "1" is notes.txt. *)
Lemma listed_file_is_returned_witness :
  returned (Tools.get_file_path Samples.home [Samples.types Samples.home "1"]
              (start Tools.monitoring_default))
  = Some (Some "/home/user/notes.txt").
Proof.
  exact (proj1 (listed_file_is_returned (Samples.types Samples.home "1")
                  "/home/user" _ "notes.txt" [] eq_refl eq_refl eq_refl)
           (start Tools.monitoring_default)).
Defined.

(** A token that is neither of the menu nor in the table: the pass ends
    with the current path as it was and nothing written. In src/tools.hpp
    the table is the one the earlier listings left as well. *)
Theorem unknown_token_is_ignored (r : interaction) (p : path)
    (entries : list directory_entry) :
  fs_directory_iterator (fs_listing r) (generic_string p) = Some entries ->
  reserved (in_opt r) = false ->
  token_table entries !! in_opt r = None ->
  (forall s, Tools.dirs_ (self s) !! in_opt r = None ->
     exists s1, Tools.loop_body r p s = Val (Continue p) s1 /\ fs_log s1 = fs_log s)
  /\ (forall s, exists s1,
        Part000.loop_body r p s = Val (Continue p) s1 /\ fs_log s1 = fs_log s)
  /\ (forall s, exists s1,
        Part001.loop_body r p s = Val (Continue p) s1 /\ fs_log s1 = fs_log s).
Proof.
  intros Hls Hres Htok.
  apply reserved_false in Hres as (H0 & Hb & Hc & Hd).
  split; [|split].
  - intros s Hold.
    destruct (Tools_loop_body_listed r p entries s Hls) as (s1 & -> & Hdirs & Hlog).
    exists s1. split; [|exact Hlog].
    assert (Hin : Tools.dirs_ (self s1) !! in_opt r = None).
    { rewrite Hdirs. now apply lookup_union_None_2. }
    unfold Tools.resolve. rewrite H0, Hb, Hc. run_io. use_lookup Hin. reflexivity.
  - intros s.
    destruct (Part000_loop_body_listed r p entries s Hls) as (s1 & -> & Hdirs & Hlog).
    exists s1. split; [|exact Hlog].
    assert (Hin : Part000.dirs_ (self s1) !! in_opt r = None) by now rewrite Hdirs.
    unfold Part000.resolve. rewrite H0, Hb, Hc, Hd. run_io. use_lookup Hin. reflexivity.
  - intros s.
    destruct (Part001_loop_body_listed r p entries s Hls) as (s1 & -> & Hlog).
    exists s1. split; [|exact Hlog].
    unfold Part001.resolve. rewrite H0, Hb, Hc. run_io. use_lookup Htok. reflexivity.
Qed.

(** On the sample tree: /home/user has three entries, "7" is none. *)
Lemma unknown_token_is_ignored_witness :
  exists s1, Part000.loop_body (Samples.types Samples.home "7") "/home/user"
               (start Part000.monitoring_default)
             = Val (Continue "/home/user") s1 /\ fs_log s1 = [].
Proof.
  exact (proj1 (proj2 (unknown_token_is_ignored (Samples.types Samples.home "7")
                         "/home/user" _ eq_refl eq_refl eq_refl))
           (start Part000.monitoring_default)).
Defined.

(** src/tools.hpp: a token the current listing does not have and an
    earlier listing mapped to a directory is acted upon: the browser
    appends the name of that entry to the current path. *)
Theorem tools_acts_on_earlier_token (r : interaction) (p : path)
    (entries : list directory_entry) (name : string) (s : state Tools.monitoring) :
  fs_directory_iterator (fs_listing r) (generic_string p) = Some entries ->
  reserved (in_opt r) = false ->
  token_table entries !! in_opt r = None ->
  Tools.dirs_ (self s) !! in_opt r = Some (true, name) ->
  exists s1, Tools.loop_body r p s = Val (Continue (p // name)) s1.
Proof.
  intros Hls Hres Htok Hold.
  apply reserved_false in Hres as (H0 & Hb & Hc & _).
  destruct (Tools_loop_body_listed r p entries s Hls) as (s1 & -> & Hdirs & _).
  exists s1.
  assert (Hin : Tools.dirs_ (self s1) !! in_opt r = Some (true, name)).
  { rewrite Hdirs, lookup_union_r; assumption. }
  unfold Tools.resolve. rewrite H0, Hb, Hc. run_io. use_lookup Hin. reflexivity.
Qed.

(** On the sample tree: after /home/user was listed, "2" typed inside docs
    (one entry) leads to /home/user/docs/docs. *)
Lemma tools_acts_on_earlier_token_witness :
  exists s1,
    Tools.loop_body (Samples.types Samples.home "2") "/home/user/docs"
      (final (Tools.loop_body (Samples.types Samples.home "2") "/home/user"
                (start Tools.monitoring_default)))
    = Val (Continue "/home/user/docs/docs") s1.
Proof.
  apply (tools_acts_on_earlier_token (Samples.types Samples.home "2") "/home/user/docs"
           [{| entry_path := "/home/user/docs/readme.md"; entry_is_directory := false |}]
           "docs");
    vm_compute; reflexivity.
Defined.

(** The later tools.hpp: "d" ends [get_file_path] with the current path,
    as its generic-format string, whatever the listing and the file
    system. *)
Theorem select_current_directory (r : interaction) (p : path)
    (script : list interaction) (s : state Part000.monitoring) :
  in_opt r = "d" ->
  is_Some (fs_directory_iterator (fs_listing r) (generic_string p)) ->
  returned (Part000.browse (r :: script) p s) = Some (Some (generic_string p)).
Proof.
  intros Hopt [entries Hls]. cbn [Part000.browse]. unfold bind at 1.
  destruct (Part000_loop_body_listed r p entries s Hls) as (s1 & -> & _).
  unfold Part000.resolve. now rewrite Hopt.
Qed.

(** On the sample tree. *)
Lemma select_current_directory_witness :
  returned (Part000.get_file_path Samples.home [Samples.types Samples.home "d"]
              (start Part000.monitoring_default))
  = Some (Some "/home/user").
Proof.
  exact (select_current_directory (Samples.types Samples.home "d") "/home/user" []
           (start Part000.monitoring_default) eq_refl (mk_is_Some _ _ eq_refl)).
Defined.

(** ** Paths under "descend" and "back" *)

Lemma string_app_cons (x : ascii) (a b : string) :
  String x a +:+ b = String x (a +:+ b).
Proof. reflexivity. Qed.

Lemma string_app_assoc (a b c : string) : (a +:+ b) +:+ c = a +:+ (b +:+ c).
Proof.
  induction a as [|x a IH]; [reflexivity|].
  rewrite !string_app_cons. now rewrite IH.
Qed.

Lemma string_app_nil_r (a : string) : a +:+ "" = a.
Proof.
  induction a as [|x a IH]; [reflexivity|].
  rewrite string_app_cons. now rewrite IH.
Qed.

Lemma split_filename_no_slash (name : string) :
  no_slash name = true -> split_filename name = (EmptyString, name).
Proof.
  induction name as [|c name IH]; [reflexivity|].
  cbn. intros [Hc Hn]%andb_prop. rewrite (IH Hn).
  now destruct (is_slash c).
Qed.

Lemma split_filename_cons (c : ascii) (r : string) :
  split_filename (String c r)
  = let '(d, f) := split_filename r in
    if is_slash c then (String c d, f)
    else match d with
         | EmptyString => (EmptyString, String c f)
         | String _ _ => (String c d, f)
         end.
Proof. reflexivity. Qed.

Lemma split_filename_app (d name : string) :
  no_slash name = true -> filename d = EmptyString ->
  split_filename (d +:+ name) = (d, name).
Proof.
  intros Hname. induction d as [|c d IH]; intros Hd.
  - now apply split_filename_no_slash.
  - rewrite string_app_cons, split_filename_cons.
    unfold filename in Hd, IH. rewrite split_filename_cons in Hd.
    destruct (split_filename d) as [dd fd] eqn:Ed.
    destruct (is_slash c) eqn:Ec.
    + simpl in Hd. subst fd. now rewrite (IH eq_refl).
    + destruct dd as [|x dd]; simpl in Hd; [discriminate|]. subst fd.
      rewrite (IH eq_refl).
      destruct d; [simpl in Ed; discriminate | reflexivity].
Qed.

Lemma split_filename_slash_end (q : string) :
  split_filename (q +:+ "/") = (q +:+ "/", EmptyString).
Proof.
  induction q as [|c q IH]; [reflexivity|].
  rewrite string_app_cons, split_filename_cons, IH.
  destruct (is_slash c); [reflexivity|].
  destruct q; reflexivity.
Qed.

Lemma strip_trailing_slashes_cons (c : ascii) (r : string) :
  strip_trailing_slashes (String c r)
  = match strip_trailing_slashes r with
    | EmptyString => if is_slash c then EmptyString else String c EmptyString
    | String _ _ as r' => String c r'
    end.
Proof. reflexivity. Qed.

Lemma strip_trailing_slashes_slash_end (p : string) :
  strip_trailing_slashes (p +:+ "/") = strip_trailing_slashes p.
Proof.
  induction p as [|c p IH]; [reflexivity|].
  now rewrite string_app_cons, !strip_trailing_slashes_cons, IH.
Qed.

Lemma has_filename_cons (c : ascii) (r : string) :
  r <> EmptyString -> has_filename (String c r) = has_filename r.
Proof.
  intros Hr. pose proof (remove_filename_filename r) as Hsplit.
  unfold has_filename, filename, remove_filename in *.
  rewrite split_filename_cons.
  destruct (split_filename r) as [d f]. simpl in Hsplit.
  destruct (is_slash c); [reflexivity|].
  destruct d as [|x d]; [|reflexivity].
  change (EmptyString +:+ f) with f in Hsplit. subst f.
  destruct r; [congruence | reflexivity].
Qed.

Lemma has_filename_strip (p : string) :
  has_filename p = true -> strip_trailing_slashes p = p.
Proof.
  induction p as [|c p IH]; [discriminate|].
  destruct p as [|x p].
  - unfold has_filename, filename. rewrite split_filename_cons, strip_trailing_slashes_cons.
    simpl. destruct (is_slash c); [discriminate | reflexivity].
  - rewrite has_filename_cons by discriminate. intros Hp.
    rewrite strip_trailing_slashes_cons. now rewrite (IH Hp).
Qed.

Lemma has_relative_path_cons (c : ascii) (r : string) :
  has_relative_path (String c r) = if is_slash c then has_relative_path r else true.
Proof. reflexivity. Qed.

Lemma has_filename_relative (p x : string) :
  has_filename p = true -> has_relative_path (p +:+ x) = true.
Proof.
  induction p as [|c p IH]; [discriminate|].
  rewrite string_app_cons, has_relative_path_cons.
  destruct (is_slash c) eqn:Ec; [|reflexivity].
  destruct p as [|y p].
  - unfold has_filename, filename. rewrite split_filename_cons. simpl.
    rewrite Ec. discriminate.
  - rewrite has_filename_cons by discriminate. exact IH.
Qed.

Lemma plain_name_shape (name : string) :
  plain_name name = true ->
  no_slash name = true /\ is_absolute name = false /\ has_relative_path name = true.
Proof.
  destruct name as [|c name]; [discriminate|]. cbn.
  intros [Hc Hn]%andb_prop. rewrite Hc, Hn.
  destruct (is_slash c); [discriminate | auto].
Qed.

(** The parent of a tidy path with a plain name appended is that path. *)
Lemma parent_path_append (p : path) (name : string) :
  tidy p = true -> plain_name name = true -> parent_path (p // name) = p.
Proof.
  intros Hp Hname. destruct (plain_name_shape name Hname) as (Hns & Habs & Hrel).
  unfold append. rewrite Habs.
  destruct (has_filename p) eqn:Hf.
  - rewrite <- string_app_assoc. unfold parent_path.
    rewrite string_app_assoc, (has_filename_relative p _ Hf), <- string_app_assoc.
    unfold remove_filename. rewrite split_filename_app; [|exact Hns|].
    + cbn [fst]. rewrite strip_trailing_slashes_slash_end, (has_filename_strip p Hf).
      destruct p; [discriminate | reflexivity].
    + unfold filename. now rewrite split_filename_slash_end.
  - unfold tidy in Hp. rewrite Hf, orb_false_r in Hp.
    apply String.eqb_eq in Hp as ->.
    change ("/" +:+ name) with (String "/" name).
    unfold parent_path. rewrite has_relative_path_cons.
    change (is_slash "/") with true. cbv iota. rewrite Hrel.
    unfold remove_filename. change (String "/" name) with ("/" +:+ name).
    rewrite (split_filename_app "/" name Hns eq_refl). reflexivity.
Qed.

(** Going into a listed directory and typing "b" at its menu brings the
    browser back: after the two passes the loop goes on from the path it
    started from, nothing written. *)
Theorem back_undoes_descend (r1 r2 : interaction) (p : path)
    (entries : list directory_entry) (name : string) (script : list interaction) :
  tidy p = true ->
  plain_name name = true ->
  fs_directory_iterator (fs_listing r1) (generic_string p) = Some entries ->
  token_table entries !! in_opt r1 = Some (true, name) ->
  in_opt r2 = "b" ->
  is_Some (fs_directory_iterator (fs_listing r2) (generic_string (p // name))) ->
  (forall s, exists s2, Tools.browse (r1 :: r2 :: script) p s = Tools.browse script p s2
                        /\ fs_log s2 = fs_log s)
  /\ (forall s, exists s2,
        Part000.browse (r1 :: r2 :: script) p s = Part000.browse script p s2
        /\ fs_log s2 = fs_log s)
  /\ (forall s, exists s2,
        Part001.browse (r1 :: r2 :: script) p s = Part001.browse script p s2
        /\ fs_log s2 = fs_log s).
Proof.
  intros Hp Hname Hls1 Htok Hb [entries2 Hls2].
  destruct (directory_token_enters r1 p entries name Hls1 Htok) as (HT & H0 & H1).
  pose proof (parent_path_append p name Hp Hname) as Hback.
  split; [|split]; intros s.
  - destruct (HT s) as (s1 & Hin & Hlog1).
    destruct (Tools_loop_body_listed r2 (p // name) entries2 s1 Hls2)
      as (s2 & Hbody & _ & Hlog2).
    exists s2. split; [|congruence].
    cbn [Tools.browse]. unfold bind at 1. rewrite Hin. unfold bind at 1. rewrite Hbody.
    unfold Tools.resolve. rewrite Hb. cbn. now rewrite Hback.
  - destruct (H0 s) as (s1 & Hin & Hlog1).
    destruct (Part000_loop_body_listed r2 (p // name) entries2 s1 Hls2)
      as (s2 & Hbody & _ & Hlog2).
    exists s2. split; [|congruence].
    cbn [Part000.browse]. unfold bind at 1. rewrite Hin. unfold bind at 1. rewrite Hbody.
    unfold Part000.resolve. rewrite Hb. cbn. now rewrite Hback.
  - destruct (H1 s) as (s1 & Hin & Hlog1).
    destruct (Part001_loop_body_listed r2 (p // name) entries2 s1 Hls2)
      as (s2 & Hbody & Hlog2).
    exists s2. split; [|congruence].
    cbn [Part001.browse]. unfold bind at 1. rewrite Hin. unfold bind at 1. rewrite Hbody.
    unfold Part001.resolve. rewrite Hb. cbn. now rewrite Hback.
Qed.

(** On the sample tree: into docs and back, then "0". *)
Lemma back_undoes_descend_witness :
  exists s2,
    Part001.browse [Samples.types Samples.home "2"; Samples.types Samples.home "b";
                    Samples.types Samples.home "0"] "/home/user" (start tt)
    = Part001.browse [Samples.types Samples.home "0"] "/home/user" s2
    /\ fs_log s2 = [].
Proof.
  exact (proj2 (proj2 (back_undoes_descend (Samples.types Samples.home "2")
                         (Samples.types Samples.home "b") "/home/user" _ "docs"
                         [Samples.types Samples.home "0"]
                         eq_refl eq_refl eq_refl eq_refl eq_refl (mk_is_Some _ _ eq_refl)))
           (start tt)).
Defined.

(** ** What a pass can and cannot do *)

Lemma Tools_loop_body_unlisted (r : interaction) (p : path) (s : state Tools.monitoring) :
  fs_directory_iterator (fs_listing r) (generic_string p) = None ->
  exists s0, Tools.loop_body r p s = Exc (filesystem_error (generic_string p)) s0 /\ fs_log s0 = fs_log s.
Proof.
  intros Hls. unfold Tools.loop_body, Tools.print_filesystem.
  rewrite Hls. run_io. eexists. split; reflexivity.
Qed.

Lemma Part000_loop_body_unlisted (r : interaction) (p : path)
    (s : state Part000.monitoring) :
  fs_directory_iterator (fs_listing r) (generic_string p) = None ->
  exists s0, Part000.loop_body r p s = Exc (filesystem_error (generic_string p)) s0 /\ fs_log s0 = fs_log s.
Proof.
  intros Hls.
  unfold Part000.loop_body, Part000.print_filesystem, Part000.dirs_clear.
  rewrite Hls. run_io. eexists. split; reflexivity.
Qed.

Lemma Part001_loop_body_unlisted (r : interaction) (p : path)
    (s : state Part001.filesystem_monitoring) :
  fs_directory_iterator (fs_listing r) (generic_string p) = None ->
  exists s0, Part001.loop_body r p s = Exc (filesystem_error (generic_string p)) s0 /\ fs_log s0 = fs_log s.
Proof.
  intros Hls. unfold Part001.loop_body, Part001.render.
  rewrite Hls. run_io. eexists. split; reflexivity.
Qed.

Ltac split_resolve :=
  repeat match goal with
         | |- context [String.eqb ?a ?b] => destruct (String.eqb_spec a b)
         | |- context [match ?m !! ?k with Some _ => _ | None => _ end] =>
             destruct (m !! k) as [[[|] ?]|]
         | |- context [if ?b then _ else _] => destruct b eqn:?
         end.

(** Without "c", the [if] chain writes nothing; when it returns a path,
    that path was seen to exist (or, in the later tools.hpp, "d" was
    typed). *)
Lemma Tools_resolve_effect (r : interaction) (p : path) (ps : string)
    (s : state Tools.monitoring) :
  (in_opt r <> "c" -> fs_log (final (Tools.resolve r p ps s)) = fs_log s)
  /\ (forall res, returned (Tools.resolve r p ps s) = Some (Return res) ->
        fs_exists (fs_after r) res = true).
Proof.
  unfold Tools.resolve, Tools.create_file. run_io.
  unfold throw, log_ofstream. split.
  - intros Hc. split_resolve; try reflexivity; congruence.
  - intros res. split_resolve; cbn; intros [=]; subst.
    all: now apply negb_false_iff.
Qed.

Lemma Part000_resolve_effect (r : interaction) (p : path) (ps : string)
    (s : state Part000.monitoring) :
  (in_opt r <> "c" -> fs_log (final (Part000.resolve r p ps s)) = fs_log s)
  /\ (forall res, returned (Part000.resolve r p ps s) = Some (Return res) ->
        fs_exists (fs_after r) res = true \/ (in_opt r = "d" /\ res = ps)).
Proof.
  unfold Part000.resolve, Part000.create_file, Part000.create_file_from.
  run_io. unfold throw, log_ofstream. split.
  - intros Hc. split_resolve; try reflexivity; congruence.
  - intros res. split_resolve; cbn; intros [=]; subst; auto.
    all: left; now apply negb_false_iff.
Qed.

Lemma Part001_resolve_effect (r : interaction) (p : path)
    (dirs : gmap string (bool * string)) (s : state Part001.filesystem_monitoring) :
  (in_opt r <> "c" -> fs_log (final (Part001.resolve r p dirs s)) = fs_log s)
  /\ (forall res, returned (Part001.resolve r p dirs s) = Some (Return res) ->
        fs_exists (fs_after r) res = true).
Proof.
  unfold Part001.resolve. run_io.
  unfold throw, log_ofstream. split.
  - intros Hc. split_resolve; try reflexivity; congruence.
  - intros res. split_resolve; cbn; intros [=]; subst.
    all: now apply negb_false_iff.
Qed.

Lemma Tools_loop_body_effect (r : interaction) (p : path) (s : state Tools.monitoring) :
  (in_opt r <> "c" -> fs_log (final (Tools.loop_body r p s)) = fs_log s)
  /\ (forall res, returned (Tools.loop_body r p s) = Some (Return res) ->
        fs_exists (fs_after r) res = true).
Proof.
  destruct (fs_directory_iterator (fs_listing r) (generic_string p)) as [entries|] eqn:Hls.
  - destruct (Tools_loop_body_listed r p entries s Hls) as (s1 & -> & _ & Hlog).
    destruct (Tools_resolve_effect r p (generic_string p) s1) as [Hw Hr].
    split; [intros Hc; rewrite (Hw Hc); exact Hlog | exact Hr].
  - destruct (Tools_loop_body_unlisted r p s Hls) as (s0 & -> & Hlog).
    split; [intros _; exact Hlog | discriminate].
Qed.

Lemma Part000_loop_body_effect (r : interaction) (p : path)
    (s : state Part000.monitoring) :
  (in_opt r <> "c" -> fs_log (final (Part000.loop_body r p s)) = fs_log s)
  /\ (forall res, returned (Part000.loop_body r p s) = Some (Return res) ->
        fs_exists (fs_after r) res = true
        \/ (in_opt r = "d" /\ res = generic_string p)).
Proof.
  destruct (fs_directory_iterator (fs_listing r) (generic_string p)) as [entries|] eqn:Hls.
  - destruct (Part000_loop_body_listed r p entries s Hls) as (s1 & -> & _ & Hlog).
    destruct (Part000_resolve_effect r p (generic_string p) s1) as [Hw Hr].
    split; [intros Hc; rewrite (Hw Hc); exact Hlog | exact Hr].
  - destruct (Part000_loop_body_unlisted r p s Hls) as (s0 & -> & Hlog).
    split; [intros _; exact Hlog | discriminate].
Qed.

Lemma Part001_loop_body_effect (r : interaction) (p : path)
    (s : state Part001.filesystem_monitoring) :
  (in_opt r <> "c" -> fs_log (final (Part001.loop_body r p s)) = fs_log s)
  /\ (forall res, returned (Part001.loop_body r p s) = Some (Return res) ->
        fs_exists (fs_after r) res = true).
Proof.
  destruct (fs_directory_iterator (fs_listing r) (generic_string p)) as [entries|] eqn:Hls.
  - destruct (Part001_loop_body_listed r p entries s Hls) as (s1 & -> & Hlog).
    destruct (Part001_resolve_effect r p (token_table entries) s1) as [Hw Hr].
    split; [intros Hc; rewrite (Hw Hc); exact Hlog | exact Hr].
  - destruct (Part001_loop_body_unlisted r p s Hls) as (s0 & -> & Hlog).
    split; [intros _; exact Hlog | discriminate].
Qed.

(** As long as the user never types "c", [get_file_path] opens no output
    stream: at any point of any session, and however it ends, the log of
    writes is as it was. *)
Theorem browsing_writes_nothing (script : list interaction) (p : path) :
  (forall r, In r script -> in_opt r <> "c") ->
  (forall s, fs_log (final (Tools.browse script p s)) = fs_log s)
  /\ (forall s, fs_log (final (Part000.browse script p s)) = fs_log s)
  /\ (forall s, fs_log (final (Part001.browse script p s)) = fs_log s).
Proof.
  revert p; induction script as [|r script IH]; intros p Hc.
  - repeat split.
  - assert (Hr : in_opt r <> "c") by (apply Hc; now left).
    assert (Hrest : forall r', In r' script -> in_opt r' <> "c")
      by (intros r' Hin; apply Hc; now right).
    split; [|split]; intros s.
    + cbn [Tools.browse]. unfold bind.
      pose proof (proj1 (Tools_loop_body_effect r p s) Hr) as Hlog.
      destruct (Tools.loop_body r p s) as [[p'| |] s1|e s1]; cbn in Hlog |- *;
        try exact Hlog.
      rewrite (proj1 (IH p' Hrest) s1). exact Hlog.
    + cbn [Part000.browse]. unfold bind.
      pose proof (proj1 (Part000_loop_body_effect r p s) Hr) as Hlog.
      destruct (Part000.loop_body r p s) as [[p'| |] s1|e s1]; cbn in Hlog |- *;
        try exact Hlog.
      rewrite (proj1 (proj2 (IH p' Hrest)) s1). exact Hlog.
    + cbn [Part001.browse]. unfold bind.
      pose proof (proj1 (Part001_loop_body_effect r p s) Hr) as Hlog.
      destruct (Part001.loop_body r p s) as [[p'| |] s1|e s1]; cbn in Hlog |- *;
        try exact Hlog.
      rewrite (proj2 (proj2 (IH p' Hrest)) s1). exact Hlog.
Qed.

(** On the sample tree: into docs, an unknown token, then "0". *)
Lemma browsing_writes_nothing_witness :
  fs_log (final (Tools.get_file_path Samples.home
                   [Samples.types Samples.home "2"; Samples.types Samples.home "x";
                    Samples.types Samples.home "0"]
                   (start Tools.monitoring_default))) = [].
Proof.
  refine (proj1 (browsing_writes_nothing _ "/home/user" _) (start Tools.monitoring_default)).
  intros r [<- | [<- | [<- | []]]]; discriminate.
Defined.

(** A path [get_file_path] returns is the empty string (the user left
    with "0"), or was seen to exist by the pass that returned it; in the
    later tools.hpp it can also be the answer to "d". *)
Theorem returned_path_was_seen (script : list interaction) (p : path) (res : string) :
  (forall s, returned (Tools.browse script p s) = Some (Some res) ->
     res = "" \/ exists r, In r script /\ fs_exists (fs_after r) res = true)
  /\ (forall s, returned (Part000.browse script p s) = Some (Some res) ->
        res = "" \/ exists r, In r script
                              /\ (fs_exists (fs_after r) res = true \/ in_opt r = "d"))
  /\ (forall s, returned (Part001.browse script p s) = Some (Some res) ->
        res = "" \/ exists r, In r script /\ fs_exists (fs_after r) res = true).
Proof.
  revert p; induction script as [|r script IH]; intros p.
  - repeat split; discriminate.
  - split; [|split]; intros s.
    + cbn [Tools.browse]. unfold bind.
      pose proof (proj2 (Tools_loop_body_effect r p s)) as Hret.
      destruct (Tools.loop_body r p s) as [[p'|x|] s1|e s1]; cbn in Hret |- *.
      * intros H. destruct (proj1 (IH p') s1 H) as [-> | (r' & Hin & Hr')]; [now left|].
        right. exists r'. split; [now right | exact Hr'].
      * intros [= <-]. right. exists r. split; [now left | now apply Hret].
      * intros [= <-]. now left.
      * discriminate.
    + cbn [Part000.browse]. unfold bind.
      pose proof (proj2 (Part000_loop_body_effect r p s)) as Hret.
      destruct (Part000.loop_body r p s) as [[p'|x|] s1|e s1]; cbn in Hret |- *.
      * intros H. destruct (proj1 (proj2 (IH p')) s1 H) as [-> | (r' & Hin & Hr')];
          [now left|].
        right. exists r'. split; [now right | exact Hr'].
      * intros [= <-]. right. exists r. split; [now left|].
        destruct (Hret x eq_refl) as [H | [H _]]; auto.
      * intros [= <-]. now left.
      * discriminate.
    + cbn [Part001.browse]. unfold bind.
      pose proof (proj2 (Part001_loop_body_effect r p s)) as Hret.
      destruct (Part001.loop_body r p s) as [[p'|x|] s1|e s1]; cbn in Hret |- *.
      * intros H. destruct (proj2 (proj2 (IH p')) s1 H) as [-> | (r' & Hin & Hr')];
          [now left|].
        right. exists r'. split; [now right | exact Hr'].
      * intros [= <-]. right. exists r. split; [now left | now apply Hret].
      * intros [= <-]. now left.
      * discriminate.
Qed.

(** On the sample tree: "1" is notes.txt, which is there. *)
Lemma returned_path_was_seen_witness :
  "/home/user/notes.txt" = ""
  \/ exists r, In r [Samples.types Samples.home "1"]
               /\ fs_exists (fs_after r) "/home/user/notes.txt" = true.
Proof.
  exact (proj1 (returned_path_was_seen [Samples.types Samples.home "1"] "/home/user"
                  "/home/user/notes.txt")
           (start Tools.monitoring_default) eq_refl).
Defined.

(** ** "c": creating a file *)

(** console_tools.hpp: "c" never throws. The stream is opened on the
    current path with the typed name appended; if it opens, an empty file
    is written there, if not, nothing happens; the current path stays. *)
Theorem part001_create_never_throws (r : interaction) (p : path)
    (s : state Part001.filesystem_monitoring) :
  in_opt r = "c" ->
  is_Some (fs_directory_iterator (fs_listing r) (generic_string p)) ->
  exists s1,
    Part001.loop_body r p s = Val (Continue p) s1
    /\ fs_log s1
       = (fs_log s ++
          if fs_ofstream (fs_after r) (p // in_filename r) ios_out
          then [{| eff_path := p // in_filename r; eff_mode := ios_out;
                   eff_data := EmptyString |}]
          else [])%list.
Proof.
  intros Hopt [entries Hls].
  destruct (Part001_loop_body_listed r p entries s Hls) as (s1 & -> & Hlog).
  unfold Part001.resolve. rewrite Hopt. run_io. unfold log_ofstream.
  destruct (fs_ofstream (fs_after r) (p // in_filename r) ios_out); cbn;
    eexists; (split; [reflexivity|]); cbn; rewrite Hlog; [reflexivity|].
  now rewrite app_nil_r.
Qed.

(** On the sample tree: locked.bin opens for no stream. *)
Lemma part001_create_never_throws_witness :
  exists s1,
    Part001.loop_body {| fs_listing := Samples.home; in_opt := "c";
                         in_filename := "locked.bin"; fs_after := Samples.home |}
      "/home/user" (start tt) = Val (Continue "/home/user") s1
    /\ fs_log s1 = [].
Proof.
  exact (part001_create_never_throws
           {| fs_listing := Samples.home; in_opt := "c";
              in_filename := "locked.bin"; fs_after := Samples.home |}
           "/home/user" (start tt) eq_refl (mk_is_Some _ _ eq_refl)).
Defined.

(** Both tools.hpp: "c" with a name whose directory exists. The file is
    the current path with the name appended, or temporary_file.txt inside
    it when that path is a directory; when the stream opens, an empty
    file is written there and the browser stays where it is. *)
Theorem create_writes_empty_file (r : interaction) (p : path) :
  let target := p // in_filename r in
  let file := if fs_is_directory (fs_after r) target
              then target // "temporary_file.txt" else target in
  in_opt r = "c" ->
  is_Some (fs_directory_iterator (fs_listing r) (generic_string p)) ->
  fs_exists (fs_after r) (remove_filename target) = true ->
  fs_ofstream (fs_after r) file ios_out = true ->
  (forall s, exists s1,
      Tools.loop_body r p s = Val (Continue p) s1
      /\ fs_log s1 = (fs_log s ++ [{| eff_path := file; eff_mode := ios_out;
                                      eff_data := EmptyString |}])%list)
  /\ (forall s, exists s1,
        Part000.loop_body r p s = Val (Continue p) s1
        /\ fs_log s1 = (fs_log s ++ [{| eff_path := file; eff_mode := ios_out;
                                        eff_data := EmptyString |}])%list).
Proof.
  intros target file Hopt [entries Hls] Hparent Hopen. split; intros s.
  - destruct (Tools_loop_body_listed r p entries s Hls) as (s1 & -> & _ & Hlog).
    unfold Tools.resolve, Tools.create_file. rewrite Hopt. run_io.
    fold target. rewrite Hparent. fold file. rewrite Hopen.
    unfold log_ofstream. cbn. eexists. split; [reflexivity|]. cbn. now rewrite Hlog.
  - destruct (Part000_loop_body_listed r p entries s Hls) as (s1 & -> & _ & Hlog).
    unfold Part000.resolve, Part000.create_file, Part000.create_file_from,
      Part000.file_t_path, set_path, get_path_fs, get_text. rewrite Hopt. run_io.
    fold target. rewrite Hparent. cbn [path_ text_]. fold file. rewrite Hopen.
    unfold log_ofstream. cbn. eexists. split; [reflexivity|]. cbn. now rewrite Hlog.
Qed.

(** On the sample tree: the user types the name of the directory docs. *)
Lemma create_writes_empty_file_witness :
  exists s1,
    Tools.loop_body {| fs_listing := Samples.home; in_opt := "c";
                       in_filename := "docs"; fs_after := Samples.home |}
      "/home/user" (start Tools.monitoring_default) = Val (Continue "/home/user") s1
    /\ fs_log s1 = [{| eff_path := "/home/user/docs/temporary_file.txt";
                       eff_mode := ios_out; eff_data := "" |}].
Proof.
  exact (proj1 (create_writes_empty_file
                  {| fs_listing := Samples.home; in_opt := "c";
                     in_filename := "docs"; fs_after := Samples.home |}
                  "/home/user" eq_refl (mk_is_Some _ _ eq_refl) eq_refl eq_refl)
           (start Tools.monitoring_default)).
Defined.

(** Both tools.hpp: when the stream "c" opens fails, [get_file_path] ends
    by [std::ios_base::failure] "Error: Cannot create file: " followed by
    the name of the file; the input that follows is never read. *)
Theorem create_failure_ends_browsing (r : interaction) (p : path)
    (script : list interaction) :
  let target := p // in_filename r in
  let file := if fs_is_directory (fs_after r) target
              then target // "temporary_file.txt" else target in
  in_opt r = "c" ->
  is_Some (fs_directory_iterator (fs_listing r) (generic_string p)) ->
  fs_exists (fs_after r) (remove_filename target) = true ->
  fs_ofstream (fs_after r) file ios_out = false ->
  (forall s, thrown (Tools.browse (r :: script) p s)
             = Some (ios_base_failure ("Error: Cannot create file: " +:+ filename file)))
  /\ (forall s, thrown (Part000.browse (r :: script) p s)
                = Some (ios_base_failure ("Error: Cannot create file: " +:+ filename file))).
Proof.
  intros target file Hopt [entries Hls] Hparent Hopen. split; intros s.
  - cbn [Tools.browse]. unfold bind at 1.
    destruct (Tools_loop_body_listed r p entries s Hls) as (s1 & -> & _).
    unfold Tools.resolve, Tools.create_file. rewrite Hopt. run_io.
    fold target. rewrite Hparent. fold file. rewrite Hopen.
    now rewrite generic_string_filename.
  - cbn [Part000.browse]. unfold bind at 1.
    destruct (Part000_loop_body_listed r p entries s Hls) as (s1 & -> & _).
    unfold Part000.resolve, Part000.create_file, Part000.create_file_from,
      Part000.file_t_path, set_path, get_path_fs, get_text.
    rewrite Hopt. run_io.
    fold target. rewrite Hparent. cbn [path_ text_]. fold file. rewrite Hopen.
    now rewrite generic_string_filename.
Qed.

(** On the sample tree: locked.bin cannot be opened; "0" is not reached. *)
Lemma create_failure_ends_browsing_witness :
  thrown (Part000.get_file_path Samples.home
            [ {| fs_listing := Samples.home; in_opt := "c";
                 in_filename := "locked.bin"; fs_after := Samples.home |};
              Samples.types Samples.home "0" ]
            (start Part000.monitoring_default))
  = Some (ios_base_failure "Error: Cannot create file: locked.bin").
Proof.
  exact (proj2 (create_failure_ends_browsing
                  {| fs_listing := Samples.home; in_opt := "c";
                     in_filename := "locked.bin"; fs_after := Samples.home |}
                  "/home/user" [Samples.types Samples.home "0"]
                  eq_refl (mk_is_Some _ _ eq_refl) eq_refl eq_refl)
           (start Part000.monitoring_default)).
Defined.

(** [create_file(path)] for a path whose directory is missing: src/tools.hpp
    does nothing; the later tools.hpp, whose [file_t(path)] keeps the
    default path, writes temporary_file.txt in the working directory (or
    throws for that file when the stream does not open). *)
Theorem create_file_missing_parent {O} (fs : filesystem) (p : path) (s : state O) :
  fs_exists fs (remove_filename p) = false ->
  let sentinel := fs_current_path fs // "temporary_file.txt" in
  Tools.create_file fs p s = Val tt s
  /\ Part000.create_file fs p s
     = if fs_ofstream fs sentinel ios_out
       then Val tt {| cout := cout s;
                      fs_log := fs_log s ++ [{| eff_path := sentinel; eff_mode := ios_out;
                                                eff_data := EmptyString |}];
                      self := self s |}
       else Exc (ios_base_failure ("Error: Cannot create file: " +:+ filename sentinel)) s.
Proof.
  intros Hparent sentinel.
  unfold Tools.create_file, Part000.create_file, Part000.create_file_from,
    Part000.file_t_path, set_path, get_path_fs, get_text.
  rewrite Hparent. split; [reflexivity|].
  cbn [path_ text_ Part000.file_t_default]. fold sentinel.
  rewrite generic_string_filename.
  destruct (fs_ofstream fs sentinel ios_out); reflexivity.
Qed.

(** On the sample tree: /nowhere is missing, the working directory is
    /home/user. *)
Lemma create_file_missing_parent_witness :
  Tools.create_file Samples.home "/nowhere/x.txt" (start tt) = Val tt (start tt)
  /\ fs_log (final (Part000.create_file Samples.home "/nowhere/x.txt" (start tt)))
     = [{| eff_path := "/home/user/temporary_file.txt"; eff_mode := ios_out;
           eff_data := "" |}].
Proof.
  destruct (create_file_missing_parent Samples.home "/nowhere/x.txt" (start tt) eq_refl)
    as [Htools Hlater].
  split; [exact Htools | now rewrite Hlater].
Defined.

(** * Further properties of [file_t] and of the file functions *)

Lemma string_length_zero (s : string) : String.length s = 0%nat <-> s = EmptyString.
Proof. destruct s; split; intros H; try reflexivity; discriminate. Qed.

(** [empty()] says whether the handle has no contents: on every handle it
    is true exactly when the text is the empty string. *)
Theorem empty_iff_no_contents (h : file_t) :
  FileHandle h -> (empty h = true <-> get_text h = EmptyString).
Proof.
  intros Hh. pose proof (FileHandle_size_consistent h Hh) as Hsize.
  unfold empty, size, get_text in *. rewrite Hsize, N.eqb_eq.
  rewrite <- string_length_zero. lia.
Qed.

(** A handle built from text is not empty, one built from a path is. *)
Lemma empty_iff_no_contents_witness :
  empty (Part000.file_t_path Samples.home "/home/user/notes.txt") = true
  /\ (empty (Part000.file_t_text Samples.home "abc") = true <-> "abc" = "").
Proof.
  split.
  - apply (empty_iff_no_contents _ (constructed_part000 Samples.home
                                      (args_path "/home/user/notes.txt"))).
    reflexivity.
  - exact (empty_iff_no_contents _ (constructed_part000 Samples.home (args_text "abc"))).
Defined.

Lemma split_filename_remove (p : path) :
  split_filename (remove_filename p) = (remove_filename p, EmptyString).
Proof.
  unfold remove_filename. induction p as [|c p IH]; [reflexivity|].
  rewrite split_filename_cons. destruct (split_filename p) as [d f]. cbn [fst] in IH.
  destruct (is_slash c) eqn:Ec; cbn [fst].
  - now rewrite split_filename_cons, IH, Ec.
  - destruct d as [|x d]; [reflexivity|]. cbn [fst].
    now rewrite split_filename_cons, IH, Ec.
Qed.

Lemma no_slash_relative (name : string) : no_slash name = true -> is_absolute name = false.
Proof.
  destruct name as [|c name]; [reflexivity|]. simpl.
  intros [Hc _]%andb_prop. now destruct (is_slash c).
Qed.

(** [set_filename] with a name that holds no separator replaces the final
    segment and nothing else: [get_filename] gives the name back, the
    directory part, the text and the size are as before. *)
Theorem set_filename_replaces_final_segment (name : string) (h : file_t) :
  no_slash name = true ->
  get_filename (set_filename name h) = name
  /\ remove_filename (get_path_fs (set_filename name h)) = remove_filename (get_path_fs h)
  /\ get_text (set_filename name h) = get_text h
  /\ size (set_filename name h) = size h.
Proof.
  intros Hname.
  assert (Hsplit : split_filename (replace_filename (path_ h) name)
                   = (remove_filename (path_ h), name)).
  { unfold replace_filename, append, has_filename, filename.
    rewrite (no_slash_relative name Hname), split_filename_remove. simpl.
    apply split_filename_app; [exact Hname|].
    unfold filename. now rewrite split_filename_remove. }
  unfold get_filename, get_path_fs, get_text, size, set_filename.
  cbn [path_ text_ size_]. unfold filename, remove_filename.
  rewrite Hsplit. cbn [fst snd].
  split; [now apply generic_string_single, no_slash_single|]. repeat split.
Qed.

(** A handle on /home/user/notes.txt renamed to todo.md. *)
Lemma set_filename_replaces_final_segment_witness :
  let h := set_filename "todo.md" (Part000.file_t_path Samples.home "/home/user/notes.txt") in
  get_filename h = "todo.md" /\ get_path h = "/home/user/todo.md".
Proof.
  split; [|reflexivity].
  exact (proj1 (set_filename_replaces_final_segment "todo.md"
                  (Part000.file_t_path Samples.home "/home/user/notes.txt") eq_refl)).
Defined.

Lemma read_buffer_length (n : nat) (bytes : string) :
  String.length (read_buffer n bytes) = n.
Proof.
  revert bytes; induction n as [|n IH]; intros bytes; [reflexivity|].
  destruct bytes; cbn [read_buffer String.length]; now rewrite IH.
Qed.

Lemma read_buffer_all (bytes : string) : read_buffer (String.length bytes) bytes = bytes.
Proof.
  induction bytes as [|c r IH]; [reflexivity|].
  cbn [String.length read_buffer]. now rewrite IH.
Qed.

(** The text and the size [set_text(buffer.get(), file_size)] leaves. *)
Lemma set_text_n_read_buffer (n : N) (bytes : string) (h : file_t) :
  text_ (set_text_n (read_buffer (N.to_nat n) bytes) n h) = read_buffer (N.to_nat n) bytes
  /\ size_ (set_text_n (read_buffer (N.to_nat n) bytes) n h) = n.
Proof.
  assert (Hsub : substring 0 (N.to_nat n) (read_buffer (N.to_nat n) bytes)
                 = read_buffer (N.to_nat n) bytes).
  { rewrite <- (read_buffer_length (N.to_nat n) bytes) at 1. apply substring_all. }
  unfold set_text_n, set_text. cbn [text_ size_]. rewrite Hsub, read_buffer_length.
  split; [reflexivity | apply N2Nat.id].
Qed.

(** [read_file] on a file that exists, opens, reports the position [n] of
    its end, and for which the array of [n] bytes is obtained: nothing is
    thrown; the handle has size [n] and as text the first [n] bytes the
    stream delivers, followed by zeros if it delivers fewer. When [n] is
    the number of bytes delivered, the text is these bytes; and, the
    directory part of the path existing, the handle reads back as the
    path and the bytes. *)
Theorem read_file_reads {O} (fs : filesystem) (p : path) (bytes : string) (n : N)
    (s : state O) :
  fs_exists fs p = true ->
  fs_is_directory fs p = false ->
  fs_ifstream fs p = Some bytes ->
  fs_tellg_end fs p = Some n ->
  make_unique_char fs n = true ->
  (exists h, Tools.read_file fs p s = Val h s
             /\ get_text h = read_buffer (N.to_nat n) bytes /\ size h = n
             /\ (n = N.of_nat (String.length bytes) ->
                 fs_exists fs (remove_filename p) = true -> reads_back h p bytes))
  /\ (exists h, Part000.read_file fs p s = Val h s
                /\ get_text h = read_buffer (N.to_nat n) bytes /\ size h = n
                /\ (n = N.of_nat (String.length bytes) ->
                    fs_exists fs (remove_filename p) = true -> reads_back h p bytes)).
Proof.
  intros Hex Hdir Hopen Hend Halloc.
  unfold Tools.read_file, Part000.read_file, tellg_size.
  rewrite Hex, Hdir, Hopen, Hend, Halloc. cbn [negb orb].
  unfold Tools.file_t_path_buf, Part000.file_t_path_buf, reads_back, get_text, size,
    get_path, get_path_fs.
  split; eexists; (split; [reflexivity|]);
    match goal with
    | |- context [set_text_n _ n ?h] =>
        destruct (set_text_n_read_buffer n bytes h) as [-> ->]
    end;
    (split; [reflexivity|]); (split; [reflexivity|]);
    intros -> Hparent; rewrite Nat2N.id, read_buffer_all;
    unfold set_text_n, set_text, set_path; rewrite Hparent, Hdir; cbn;
    pose proof (generic_string_single p); tauto.
Qed.

(** On the sample tree. *)
Lemma read_file_reads_witness :
  exists h, Tools.read_file Samples.home "/home/user/notes.txt" (start tt) = Val h (start tt)
            /\ reads_back h "/home/user/notes.txt" "hello".
Proof.
  destruct (proj1 (read_file_reads Samples.home "/home/user/notes.txt" "hello" 5 (start tt)
                     eq_refl eq_refl eq_refl eq_refl eq_refl))
    as (h & Hrun & _ & _ & Hback).
  exists h. split; [exact Hrun | exact (Hback eq_refl eq_refl)].
Defined.

(** [read_file] on a file that exists and opens but whose end cannot be
    sought (a FIFO, a file of /proc): [tellg()] is -1, the size asked of
    [make_unique] is [SIZE_MAX], and [std::bad_alloc] leaves [read_file],
    whatever the stream would deliver. *)
Theorem read_file_unseekable_throws {O} (fs : filesystem) (p : path) (bytes : string)
    (s : state O) :
  fs_exists fs p = true ->
  fs_is_directory fs p = false ->
  fs_ifstream fs p = Some bytes ->
  fs_tellg_end fs p = None ->
  Tools.read_file fs p s = Exc bad_alloc s
  /\ Part000.read_file fs p s = Exc bad_alloc s.
Proof.
  intros Hex Hdir Hopen Hend.
  unfold Tools.read_file, Part000.read_file, tellg_size, make_unique_char.
  rewrite Hex, Hdir, Hopen, Hend. split; reflexivity.
Qed.

(** The FIFO /home/user/pipe. *)
Lemma read_file_unseekable_throws_witness :
  Part000.read_file home_with_pipe "/home/user/pipe" (start tt) = Exc bad_alloc (start tt).
Proof.
  exact (proj2 (read_file_unseekable_throws home_with_pipe "/home/user/pipe" "ping"
                  (start tt) eq_refl eq_refl eq_refl eq_refl)).
Defined.

(** [read_file] on a bare file name that is read in full: the name with
    its final segment removed is the empty path, which does not exist, so
    the [set_path] of the constructor does nothing. The handle has the
    bytes of the file but not its path: the empty path in src/tools.hpp,
    the sentinel temporary_file.txt of the working directory in the later
    tools.hpp. *)
Theorem read_file_bare_name_loses_path {O} (fs : filesystem) (p : path)
    (bytes : string) (s : state O) :
  no_slash p = true ->
  fs_exists fs EmptyString = false ->
  fs_exists fs p = true ->
  fs_is_directory fs p = false ->
  fs_ifstream fs p = Some bytes ->
  fs_tellg_end fs p = Some (N.of_nat (String.length bytes)) ->
  make_unique_char fs (N.of_nat (String.length bytes)) = true ->
  (exists h, Tools.read_file fs p s = Val h s
             /\ get_text h = bytes /\ get_path_fs h = EmptyString)
  /\ (exists h, Part000.read_file fs p s = Val h s
                /\ get_text h = bytes
                /\ get_path_fs h = fs_current_path fs // "temporary_file.txt").
Proof.
  intros Hname Hempty Hex Hdir Hopen Hend Halloc.
  assert (Hparent : remove_filename p = EmptyString).
  { unfold remove_filename. now rewrite split_filename_no_slash. }
  unfold Tools.read_file, Part000.read_file, tellg_size.
  rewrite Hex, Hdir, Hopen, Hend, Halloc. cbn [negb orb].
  unfold Tools.file_t_path_buf, Part000.file_t_path_buf, get_text, get_path_fs.
  split; eexists; (split; [reflexivity|]);
    match goal with
    | |- context [set_text_n _ ?n ?h] =>
        destruct (set_text_n_read_buffer n bytes h) as [-> _]
    end;
    rewrite Nat2N.id, read_buffer_all; (split; [reflexivity|]);
    unfold set_text_n, set_text, set_path; rewrite Hparent, Hempty; reflexivity.
Qed.

(** notes.txt read under its bare name from /home/user. *)
Lemma read_file_bare_name_loses_path_witness :
  exists h, Part000.read_file home_by_name "notes.txt" (start tt) = Val h (start tt)
            /\ get_text h = "hello"
            /\ get_path_fs h = "/home/user/temporary_file.txt".
Proof.
  exact (proj2 (read_file_bare_name_loses_path home_by_name "notes.txt" "hello" (start tt)
                  eq_refl eq_refl eq_refl eq_refl eq_refl eq_refl eq_refl)).
Defined.

(** [read_file(file)] overwrites the handle with what [read_file] returns
    for its path. When [exists()] is false the handle comes back as the
    default one, its text and its path gone. When [exists()] is true, the
    file opens, the position of its end is the number of its bytes and
    the array is obtained, the text is the bytes of the file; when it
    opens and its end cannot be sought, [std::bad_alloc] is thrown. *)
Theorem read_file_into_follows_exists {O} (fs : filesystem) (h : file_t) (s : state O) :
  (file_exists fs h = false ->
   Tools.read_file_into fs h s = Val (Tools.file_t_default fs) s
   /\ Part000.read_file_into fs h s = Val (Part000.file_t_default fs) s)
  /\ (forall bytes,
        file_exists fs h = true ->
        fs_ifstream fs (get_path_fs h) = Some bytes ->
        (fs_tellg_end fs (get_path_fs h) = Some (N.of_nat (String.length bytes)) ->
         make_unique_char fs (N.of_nat (String.length bytes)) = true ->
         (exists h', Tools.read_file_into fs h s = Val h' s /\ get_text h' = bytes)
         /\ (exists h', Part000.read_file_into fs h s = Val h' s /\ get_text h' = bytes))
        /\ (fs_tellg_end fs (get_path_fs h) = None ->
            Tools.read_file_into fs h s = Exc bad_alloc s
            /\ Part000.read_file_into fs h s = Exc bad_alloc s)).
Proof.
  unfold file_exists, Tools.read_file_into, Part000.read_file_into,
    Tools.read_file, Part000.read_file, get_path_fs, tellg_size.
  split.
  - intros Hno.
    assert (Hguard : negb (fs_exists fs (path_ h)) || fs_is_directory fs (path_ h) = true).
    { destruct (fs_exists fs (path_ h)), (fs_is_directory fs (path_ h));
        simpl in *; congruence. }
    rewrite Hguard. split; reflexivity.
  - intros bytes [Hex Hdir]%andb_prop Hopen.
    apply negb_true_iff in Hdir. rewrite Hex, Hdir, Hopen. cbn [negb orb]. split.
    + intros Hend Halloc. rewrite Hend, Halloc.
      unfold Tools.file_t_path_buf, Part000.file_t_path_buf, get_text.
      split; eexists; (split; [reflexivity|]);
        match goal with
        | |- context [set_text_n _ ?n ?h] =>
            destruct (set_text_n_read_buffer n bytes h) as [-> _]
        end;
        now rewrite Nat2N.id, read_buffer_all.
    + intros Hend. rewrite Hend. split; reflexivity.
Qed.

(** A handle made for a file still to be written, read back from disk;
    and a handle on notes.txt, which is there. *)
Lemma read_file_into_follows_exists_witness :
  let draft := Part000.file_t_path_text Samples.home "/home/user/new.txt" "draft" in
  let notes := Part000.file_t_path_text Samples.home "/home/user/notes.txt" "draft" in
  Part000.read_file_into Samples.home draft (start tt)
    = Val (Part000.file_t_default Samples.home) (start tt)
  /\ exists h', Part000.read_file_into Samples.home notes (start tt) = Val h' (start tt)
                /\ get_text h' = "hello".
Proof.
  split.
  - exact (proj2 (proj1 (read_file_into_follows_exists Samples.home
                           (Part000.file_t_path_text Samples.home "/home/user/new.txt" "draft")
                           (start tt)) eq_refl)).
  - exact (proj2 (proj1 (proj2 (read_file_into_follows_exists Samples.home
                                  (Part000.file_t_path_text Samples.home
                                     "/home/user/notes.txt" "draft")
                                  (start tt)) "hello" eq_refl eq_refl)
                    eq_refl eq_refl)).
Defined.

(** The later tools.hpp: on file systems where the empty path names
    nothing, the path of a handle is never empty, whichever constructor
    built it and whichever setters followed (the file name not being set
    to the empty string). *)
Theorem part000_path_never_empty (h : file_t) :
  Part000_handle h -> get_path h <> EmptyString.
Proof.
  intros Hh. unfold get_path. apply generic_string_nonempty. revert Hh.
  induction 1 as [fs a Hfs | fs p h Hfs Hh IH | text h Hh IH | text n h Hh IH
                 | name h Hname Hh IH]; try exact IH.
  - assert (Hdefault : fs_current_path fs // "temporary_file.txt" <> EmptyString)
      by now apply append_nonempty.
    assert (Hset : forall p, path_ (set_path fs p (Part000.file_t_default fs)) <> EmptyString).
    { intros p. unfold set_path.
      destruct (fs_exists fs (remove_filename p)) eqn:Hp; [|exact Hdefault]. simpl.
      destruct (fs_is_directory fs p); [now apply append_nonempty|].
      intros ->. change (remove_filename EmptyString) with EmptyString in Hp. congruence. }
    destruct a; simpl; try exact Hdefault; apply Hset.
  - unfold set_path. destruct (fs_exists fs (remove_filename p)) eqn:Hp; [|exact IH].
    simpl. destruct (fs_is_directory fs p); [now apply append_nonempty|].
    intros ->. change (remove_filename EmptyString) with EmptyString in Hp. congruence.
  - simpl. unfold replace_filename. now apply append_nonempty.
Qed.

(** A handle of the later tools.hpp built from a path whose directory is
    missing, then given text. *)
Lemma part000_path_never_empty_witness :
  get_path (set_text "abc" (Part000.construct Samples.home (args_path "/nowhere/x.txt")))
  <> "".
Proof.
  apply part000_path_never_empty.
  apply part000_set_text. now apply part000_constructed.
Defined.

(** * [get_correct_int] *)

Lemma stoi_in_range (str : string) (n : Z) :
  stoi str = inr n -> (INT_MIN <= n <= INT_MAX)%Z.
Proof.
  unfold stoi.
  destruct (match skip_ws str with
            | EmptyString => (false, skip_ws str)
            | String c r =>
                if Ascii.eqb c "-" then (true, r)
                else if Ascii.eqb c "+" then (false, r) else (false, skip_ws str)
            end) as [negative s].
  destruct (digits s 0 false) as [v|]; [|discriminate].
  destruct (_ && _)%Z eqn:Hrange; [|discriminate].
  intros [= <-]. apply andb_prop in Hrange as [H1 H2].
  apply Z.leb_le in H1, H2. lia.
Qed.

(** One run of the loop: the word extracted converts and is returned, the
    stream left right after it; or the complaint is printed, the rest of
    the line dropped, and the loop runs again. *)
Lemma get_correct_int_step (fuel : nat) (s : state istream) :
  get_correct_int (S fuel) s
  = let '(w, rest) := take_word (skip_ws (self s)) in
    match stoi w with
    | inr n => Val (Some n) (with_cin rest s)
    | inl _ =>
        get_correct_int fuel
          (with_cin (ignore_line rest) (printed invalid_input_message s))
    end.
Proof.
  cbn [get_correct_int]. unfold bind at 1, cin_extract.
  destruct (take_word (skip_ws (self s))) as [w rest].
  destruct (stoi w) as [e|n]; [|reflexivity].
  run_io. unfold input_stream_clear, with_cin, printed, invalid_input_message.
  cbn [cout fs_log self]. now rewrite !string_app_assoc.
Qed.

(** [get_correct_int] lets no exception out and writes to no file; a value
    it returns is in the range of [int]. *)
Theorem get_correct_int_returns_int (fuel : nat) (s : state istream) :
  thrown (get_correct_int fuel s) = None
  /\ fs_log (final (get_correct_int fuel s)) = fs_log s
  /\ (forall n, returned (get_correct_int fuel s) = Some (Some n) ->
        (INT_MIN <= n <= INT_MAX)%Z).
Proof.
  revert s; induction fuel as [|fuel IH]; intros s.
  - split; [reflexivity|]. split; [reflexivity|]. discriminate.
  - rewrite get_correct_int_step.
    destruct (take_word (skip_ws (self s))) as [w rest].
    destruct (stoi w) as [e|n] eqn:Hstoi.
    + destruct (IH (with_cin (ignore_line rest) (printed invalid_input_message s)))
        as (Ht & Hl & Hr).
      split; [exact Ht|]. split; [exact Hl | exact Hr].
    + split; [reflexivity|]. split; [reflexivity|].
      intros m [= <-]. now apply (stoi_in_range w).
Qed.

(** A value beyond 2^31 - 1 is refused, the next line is read. *)
Lemma get_correct_int_returns_int_witness :
  returned (get_correct_int 2 (with_cin ("2147483648" +:+ newline +:+ "-7") (start "")))
  = Some (Some (-7)%Z)
  /\ (INT_MIN <= -7 <= INT_MAX)%Z.
Proof.
  split; [reflexivity|].
  exact (proj2 (proj2 (get_correct_int_returns_int 2
           (with_cin ("2147483648" +:+ newline +:+ "-7") (start "")))) (-7)%Z eq_refl).
Defined.

Lemma digits_none (s : string) : has_digit s = false -> digits s 0 false = None.
Proof.
  destruct s as [|c r]; [reflexivity|]. simpl. unfold is_decimal.
  destruct (digit_value c); [discriminate | reflexivity].
Qed.

Lemma has_digit_skip_ws (s : string) : has_digit s = false -> has_digit (skip_ws s) = false.
Proof.
  induction s as [|c r IH]; [reflexivity|]. intros H. simpl.
  destruct (isspace c); [|exact H].
  simpl in H. apply orb_false_elim in H as [_ H]. now apply IH.
Qed.

Lemma has_digit_take_word (s : string) :
  has_digit s = false ->
  has_digit (fst (take_word s)) = false /\ has_digit (snd (take_word s)) = false.
Proof.
  induction s as [|c r IH]; [split; reflexivity|]. intros H. simpl.
  destruct (isspace c); [split; [reflexivity | exact H]|].
  simpl in H. apply orb_false_elim in H as [Hc Hr].
  destruct (IH Hr) as [Hw Hrest]. destruct (take_word r) as [w rest].
  simpl in *. now rewrite Hc, Hw.
Qed.

Lemma has_digit_ignore_line (s : string) :
  has_digit s = false -> has_digit (ignore_line s) = false.
Proof.
  induction s as [|c r IH]; [reflexivity|]. intros H. simpl.
  simpl in H. apply orb_false_elim in H as [_ H].
  destruct (Ascii.eqb c _); [exact H | now apply IH].
Qed.

Lemma stoi_no_digit (w : string) : has_digit w = false -> stoi w = inl invalid_argument.
Proof.
  intros H. apply has_digit_skip_ws in H. unfold stoi.
  destruct (skip_ws w) as [|c r]; [reflexivity|].
  pose proof H as Hfull. simpl in H. apply orb_false_elim in H as [_ Hr].
  destruct (Ascii.eqb c "-"); [now rewrite (digits_none r Hr)|].
  destruct (Ascii.eqb c "+"); [now rewrite (digits_none r Hr)|].
  now rewrite (digits_none _ Hfull).
Qed.

Lemma cout_app_assoc {O} (a b : string) (s : state O) :
  printed b (printed a s) = printed (a +:+ b) s.
Proof. unfold printed. cbn. now rewrite string_app_assoc. Qed.

(** On input that holds no digit, in particular at the end of the input,
    the loop never ends: however many times it runs, it is still running,
    and it has printed its complaint once per run. *)
Theorem get_correct_int_spins_without_digit (fuel : nat) (s : state istream) :
  has_digit (self s) = false ->
  returned (get_correct_int fuel s) = Some None
  /\ cout (final (get_correct_int fuel s)) = cout s +:+ times fuel invalid_input_message.
Proof.
  revert s; induction fuel as [|fuel IH]; intros s Hs.
  - split; [reflexivity|]. cbn. now rewrite string_app_nil_r.
  - rewrite get_correct_int_step.
    destruct (has_digit_take_word _ (has_digit_skip_ws _ Hs)) as [Hw Hrest].
    destruct (take_word (skip_ws (self s))) as [w rest]. cbn [fst snd] in Hw, Hrest.
    rewrite (stoi_no_digit w Hw).
    destruct (IH (with_cin (ignore_line rest) (printed invalid_input_message s)))
      as [Hret Hout]; [now apply has_digit_ignore_line|].
    rewrite Hret, Hout. split; [reflexivity|].
    cbn [cout with_cin printed times]. now rewrite string_app_assoc.
Qed.

(** At the end of the input. *)
Lemma get_correct_int_spins_without_digit_witness :
  returned (get_correct_int 5 (start "")) = Some None.
Proof. exact (proj1 (get_correct_int_spins_without_digit 5 (start "") eq_refl)). Defined.

Lemma skip_ws_word (w x : string) :
  w <> EmptyString -> no_space w = true -> skip_ws (w +:+ x) = w +:+ x.
Proof.
  destruct w as [|c w]; [congruence|]. intros _ [Hc _]%andb_prop.
  rewrite string_app_cons. simpl. now destruct (isspace c).
Qed.

Lemma take_word_app (w rest : string) :
  no_space w = true -> word_ends rest = true -> take_word (w +:+ rest) = (w, rest).
Proof.
  intros Hw Hrest. induction w as [|c w IH].
  - change (EmptyString +:+ rest) with rest. destruct rest as [|c r]; [reflexivity|].
    simpl in *. now rewrite Hrest.
  - simpl in Hw. apply andb_prop in Hw as [Hc Hw].
    rewrite string_app_cons. simpl. destruct (isspace c); [discriminate|].
    now rewrite (IH Hw).
Qed.

Lemma ignore_line_app (rest next : string) :
  no_newline rest = true -> ignore_line (rest +:+ newline +:+ next) = next.
Proof.
  induction rest as [|c rest IH]; [reflexivity|].
  intros H. simpl in H. apply andb_prop in H as [Hc Hr].
  rewrite string_app_cons. cbn [ignore_line].
  destruct (Ascii.eqb c _); [discriminate | now apply IH].
Qed.

Lemma word_ends_before_newline (rest x : string) :
  word_ends rest = true -> word_ends (rest +:+ newline +:+ x) = true.
Proof. destruct rest; [reflexivity | exact (fun H => H)]. Qed.

(** A word that does not convert costs the whole line: what follows it up
    to the newline is dropped with it, a number included, and the loop
    starts again on the next line, one complaint printed. *)
Theorem invalid_word_discards_line (fuel : nat) (w rest next : string)
    (e : stoi_error) (s : state istream) :
  w <> EmptyString ->
  no_space w = true ->
  word_ends rest = true ->
  no_newline rest = true ->
  stoi w = inl e ->
  self s = w +:+ rest +:+ newline +:+ next ->
  get_correct_int (S fuel) s
  = get_correct_int fuel (with_cin next (printed invalid_input_message s)).
Proof.
  intros Hne Hw Hrest Hline Hstoi Hcin.
  rewrite get_correct_int_step, Hcin, (skip_ws_word w _ Hne Hw).
  rewrite (take_word_app w _ Hw (word_ends_before_newline rest next Hrest)).
  now rewrite Hstoi, (ignore_line_app rest next Hline).
Qed.

(** The 12 that follows abc on its line is lost; 7 is returned. *)
Lemma invalid_word_discards_line_witness :
  returned (get_correct_int 2 (with_cin ("abc 12" +:+ newline +:+ "7") (start "")))
  = Some (Some 7%Z).
Proof.
  rewrite (invalid_word_discards_line 1 "abc" " 12" "7" invalid_argument
             (with_cin ("abc 12" +:+ newline +:+ "7") (start "")));
    try reflexivity; discriminate.
Defined.

(** ** Decimal numbers *)

Lemma is_decimal_facts (c : ascii) :
  is_decimal c = true ->
  isspace c = false /\ Ascii.eqb c "-" = false /\ Ascii.eqb c "+" = false.
Proof.
  destruct c as [[] [] [] [] [] [] [] []]; try discriminate; repeat split.
Qed.

Lemma all_decimal_no_space (ds : string) : all_decimal ds = true -> no_space ds = true.
Proof.
  induction ds as [|c ds IH]; [reflexivity|]. simpl.
  intros [Hc Hds]%andb_prop. destruct (is_decimal_facts c Hc) as (-> & _).
  now rewrite (IH Hds).
Qed.

Lemma no_space_app (a b : string) :
  no_space a = true -> no_space b = true -> no_space (a +:+ b) = true.
Proof.
  induction a as [|c a IH]; [intros _ H; exact H|].
  intros Ha Hb. simpl in Ha. apply andb_prop in Ha as [Hc Ha].
  rewrite string_app_cons. cbn [no_space]. now rewrite Hc, (IH Ha Hb).
Qed.

Lemma all_decimal_app (a b : string) :
  all_decimal a = true -> all_decimal b = true -> all_decimal (a +:+ b) = true.
Proof.
  induction a as [|c a IH]; [intros _ H; exact H|].
  intros Ha Hb. simpl in Ha. apply andb_prop in Ha as [Hc Ha].
  rewrite string_app_cons. cbn [all_decimal]. now rewrite Hc, (IH Ha Hb).
Qed.

Lemma digit_value_pretty_N_char (y : N) :
  (y < 10)%N ->
  digit_value (pretty_N_char y) = Some (Z.of_N y)
  /\ is_decimal (pretty_N_char y) = true.
Proof.
  intros Hy.
  assert (Hcases : (y = 0 \/ y = 1 \/ y = 2 \/ y = 3 \/ y = 4 \/ y = 5 \/ y = 6
                    \/ y = 7 \/ y = 8 \/ y = 9)%N) by lia.
  repeat (destruct Hcases as [-> | Hcases]; [split; reflexivity|]).
  subst. split; reflexivity.
Qed.

Lemma reads_as_digit (y : N) :
  (y < 10)%N -> reads_as (String (pretty_N_char y) EmptyString) (Z.of_N y).
Proof.
  intros Hy t acc b. destruct (digit_value_pretty_N_char y Hy) as [Hd _].
  rewrite string_app_cons. change (EmptyString +:+ t) with t.
  cbn [digits]. rewrite Hd. f_equal. cbn [String.length]. lia.
Qed.

Lemma reads_as_snoc (ds : string) (v : Z) (y : N) :
  (y < 10)%N -> reads_as ds v ->
  reads_as (ds +:+ String (pretty_N_char y) EmptyString) (10 * v + Z.of_N y).
Proof.
  intros Hy Hds t acc b. destruct (digit_value_pretty_N_char y Hy) as [Hd _].
  rewrite string_app_assoc, Hds, string_app_cons.
  change (EmptyString +:+ t) with t. cbn [digits]. rewrite Hd. f_equal.
  rewrite string_app_length. cbn [String.length].
  rewrite Nat2Z.inj_add, Z.pow_add_r by lia. change (10 ^ Z.of_nat 1)%Z with 10%Z. lia.
Qed.

Lemma pretty_N_go_reads (x : N) :
  forall s, (0 < x)%N ->
  exists ds, pretty_N_go x s = ds +:+ s /\ ds <> EmptyString
             /\ all_decimal ds = true /\ reads_as ds (Z.of_N x).
Proof.
  induction x as [x IH] using (well_founded_induction N.lt_wf_0).
  intros s Hx. rewrite pretty_N_go_step by exact Hx.
  assert (Hy : (x `mod` 10 < 10)%N) by (apply N.mod_lt; lia).
  destruct (digit_value_pretty_N_char _ Hy) as [_ Hdec].
  destruct (N.eq_dec (x `div` 10)%N 0%N) as [H0 | Hne].
  - rewrite H0, pretty_N_go_0.
    exists (String (pretty_N_char (x `mod` 10)) EmptyString).
    split; [reflexivity|]. split; [discriminate|]. split; [simpl; now rewrite Hdec|].
    replace (Z.of_N x) with (Z.of_N (x `mod` 10)); [now apply reads_as_digit|].
    f_equal. pose proof (N.div_mod x 10). lia.
  - destruct (IH (x `div` 10)%N) with (s := String (pretty_N_char (x `mod` 10)) s)
      as (ds & Heq & Hds & Hall & Hread);
      [apply N.div_lt; lia | now apply N.neq_0_lt_0 |].
    exists (ds +:+ String (pretty_N_char (x `mod` 10)) EmptyString).
    split; [now rewrite Heq, string_app_assoc|].
    split; [destruct ds; [congruence | discriminate]|].
    split; [apply all_decimal_app; [exact Hall | simpl; now rewrite Hdec]|].
    replace (Z.of_N x) with (10 * Z.of_N (x `div` 10) + Z.of_N (x `mod` 10))%Z;
      [now apply reads_as_snoc|].
    pose proof (N.div_mod x 10). lia.
Qed.

(** [std::to_string] writes a minus sign for a negative number and then
    the digits of its magnitude. *)
Lemma to_string_shape (n : Z) :
  exists ds, to_string n = (if (n <? 0)%Z then "-" else "") +:+ ds
             /\ ds <> EmptyString /\ all_decimal ds = true /\ reads_as ds (Z.abs n).
Proof.
  destruct n as [|x|x].
  - exists "0". split; [reflexivity|]. split; [discriminate|]. split; [reflexivity|].
    exact (reads_as_digit 0 eq_refl).
  - destruct (pretty_N_go_reads (N.pos x) EmptyString eq_refl) as (ds & Heq & H).
    exists ds. split; [|exact H].
    unfold to_string, pretty, pretty_Z, pretty, pretty_positive, pretty, pretty_N.
    destruct (decide (N.pos x = 0%N)); [discriminate|].
    rewrite Heq. now rewrite string_app_nil_r.
  - destruct (pretty_N_go_reads (N.pos x) EmptyString eq_refl) as (ds & Heq & H).
    exists ds. split; [|exact H].
    unfold to_string, pretty, pretty_Z, pretty, pretty_positive, pretty, pretty_N.
    destruct (decide (N.pos x = 0%N)); [discriminate|].
    rewrite Heq. now rewrite string_app_nil_r.
Qed.

Lemma digits_stop (junk : string) (v : Z) :
  digits_end junk = true -> digits junk v true = Some v.
Proof.
  destruct junk as [|c junk]; [reflexivity|]. simpl. unfold is_decimal.
  destruct (digit_value c); [discriminate | reflexivity].
Qed.

(** [std::stoi] gives back every [int] that [std::to_string] wrote,
    whatever follows the digits. *)
Lemma stoi_to_string (n : Z) (junk : string) :
  (INT_MIN <= n <= INT_MAX)%Z -> digits_end junk = true ->
  stoi (to_string n +:+ junk) = inr n.
Proof.
  intros Hn Hjunk. destruct (to_string_shape n) as (ds & -> & Hne & Hall & Hread).
  destruct ds as [|c ds]; [congruence|].
  pose proof Hall as Hc. simpl in Hc. apply andb_prop in Hc as [Hc _].
  destruct (is_decimal_facts c Hc) as (Hsp & Hminus & Hplus).
  unfold stoi. destruct (n <? 0)%Z eqn:Hneg.
  - change (("-" +:+ String c ds) +:+ junk) with (String "-" (String c ds +:+ junk)).
    cbn [skip_ws]. change (isspace "-") with false. cbv iota.
    change (Ascii.eqb "-" "-") with true. cbv iota.
    rewrite Hread, (digits_stop junk _ Hjunk).
    apply Z.ltb_lt in Hneg.
    replace (- (0 * 10 ^ Z.of_nat (String.length (String c ds)) + Z.abs n))%Z with n by lia.
    destruct ((INT_MIN <=? n) && (n <=? INT_MAX))%Z eqn:Hr; [reflexivity|].
    apply andb_false_iff in Hr as [Hr | Hr]; apply Z.leb_gt in Hr; lia.
  - change (("" +:+ String c ds) +:+ junk) with (String c (ds +:+ junk)).
    cbn [skip_ws]. rewrite Hsp, Hminus, Hplus.
    change (String c (ds +:+ junk)) with (String c ds +:+ junk).
    rewrite Hread, (digits_stop junk _ Hjunk).
    apply Z.ltb_ge in Hneg.
    replace (0 * 10 ^ Z.of_nat (String.length (String c ds)) + Z.abs n)%Z with n by lia.
    destruct ((INT_MIN <=? n) && (n <=? INT_MAX))%Z eqn:Hr; [reflexivity|].
    apply andb_false_iff in Hr as [Hr | Hr]; apply Z.leb_gt in Hr; lia.
Qed.

Lemma to_string_word (n : Z) : to_string n <> EmptyString /\ no_space (to_string n) = true.
Proof.
  destruct (to_string_shape n) as (ds & -> & Hne & Hall & _).
  apply all_decimal_no_space in Hall.
  destruct (n <? 0)%Z.
  - split; [discriminate|]. change ("-" +:+ ds) with (String "-" ds). simpl. exact Hall.
  - change ("" +:+ ds) with ds. now split.
Qed.

(** Typing an [int] in decimal gives that [int]: the loop returns it at
    once, prints nothing and leaves the stream right after the word. What
    follows the digits inside the word is ignored ("12abc" is 12). *)
Theorem decimal_input_is_returned (fuel : nat) (n : Z) (junk rest : string)
    (s : state istream) :
  (INT_MIN <= n <= INT_MAX)%Z ->
  digits_end junk = true ->
  no_space junk = true ->
  word_ends rest = true ->
  self s = to_string n +:+ junk +:+ rest ->
  get_correct_int (S fuel) s = Val (Some n) (with_cin rest s).
Proof.
  intros Hn Hend Hjunk Hrest Hcin.
  destruct (to_string_word n) as [Hne Hsp].
  assert (Hw : no_space (to_string n +:+ junk) = true) by now apply no_space_app.
  assert (Hwne : to_string n +:+ junk <> EmptyString).
  { destruct (to_string n); [congruence | discriminate]. }
  rewrite get_correct_int_step, Hcin, <- string_app_assoc.
  rewrite (skip_ws_word _ rest Hwne Hw), (take_word_app _ rest Hw Hrest).
  now rewrite (stoi_to_string n junk Hn Hend).
Qed.

(** "-12abc 5": -12 is returned, " 5" stays in the stream. *)
Lemma decimal_input_is_returned_witness :
  get_correct_int 1 (with_cin "-12abc 5" (start ""))
  = Val (Some (-12)%Z) (with_cin " 5" (start "")).
Proof.
  apply (decimal_input_is_returned 0 (-12) "abc" " 5" (with_cin "-12abc 5" (start "")));
    try reflexivity.
  unfold INT_MIN, INT_MAX. lia.
Defined.

(** * The timer *)

(** Reading the timer resets it: with both points set, [get_time_offset]
    returns a value and leaves the object as new, so the call that
    follows throws "missing start point". *)
Theorem get_time_offset_resets (t1 t2 : time.time_type) (this : time.monitoring) :
  t1 <> 0%Z -> t2 <> 0%Z ->
  let timed := time.set_end_point t2 (time.set_start_point t1 this) in
  (exists v, fst (time.get_time_offset timed) = inr v)
  /\ snd (time.get_time_offset timed) = time.monitoring_default
  /\ time.get_time_offset (snd (time.get_time_offset timed))
     = (inl "Time.err(): missing start point", time.monitoring_default).
Proof.
  intros H1 H2 timed. unfold timed, time.get_time_offset, time.set_end_point,
    time.set_start_point, time.time_type_default. cbn [time.start_point_ time.end_point_].
  apply Z.eqb_neq in H1, H2. rewrite H1, H2. cbn.
  split; [eexists; reflexivity|]. split; reflexivity.
Qed.

(** Started at 1.5 s and stopped at 4.2 s after the epoch. *)
Lemma get_time_offset_resets_witness :
  time.get_time_offset
    (snd (time.get_time_offset
            (time.set_end_point 4200000000%Z
               (time.set_start_point 1500000000%Z time.monitoring_default))))
  = (inl "Time.err(): missing start point", time.monitoring_default).
Proof.
  refine (proj2 (proj2 (get_time_offset_resets 1500000000%Z 4200000000%Z
                          time.monitoring_default _ _))); discriminate.
Defined.

Lemma seconds_count_bounds (t : Z) :
  (0 <= t)%Z ->
  (1000000000 * time.seconds_count t <= t < 1000000000 * time.seconds_count t + 1000000000)%Z
  /\ (0 <= time.seconds_count t)%Z.
Proof.
  intros Ht. unfold time.seconds_count. rewrite Z.quot_div_nonneg by lia.
  pose proof (Z.div_mod t 1000000000 ltac:(lia)).
  pose proof (Z.mod_pos_bound t 1000000000 ltac:(lia)).
  pose proof (Z.div_pos t 1000000000 Ht ltac:(lia)). lia.
Qed.

(** With the start not after the end (both after the epoch, as 64-bit
    counts of nanoseconds), the value returned is the difference of the
    two readings each cut to whole seconds: it is off the time elapsed by
    less than one second, above or below. *)
Theorem get_time_offset_accuracy (this : time.monitoring) :
  (0 < time.start_point_ this)%Z ->
  (time.start_point_ this <= time.end_point_ this)%Z ->
  (time.end_point_ this < 2 ^ 63)%Z ->
  exists v,
    fst (time.get_time_offset this) = inr v
    /\ v = (time.seconds_count (time.end_point_ this)
            - time.seconds_count (time.start_point_ this))%Z
    /\ (Z.abs (1000000000 * v - (time.end_point_ this - time.start_point_ this))
        < 1000000000)%Z.
Proof.
  intros Hs Hle He.
  destruct (seconds_count_bounds (time.start_point_ this)) as [Hbs Hps]; [lia|].
  destruct (seconds_count_bounds (time.end_point_ this)) as [Hbe Hpe]; [lia|].
  set (ss := time.seconds_count (time.start_point_ this)) in *.
  set (se := time.seconds_count (time.end_point_ this)) in *.
  assert (Hord : (ss <= se)%Z) by lia.
  exists (se - ss)%Z.
  unfold time.get_time_offset, time.time_type_default.
  destruct (Z.eqb_spec (time.start_point_ this) 0); [lia|].
  destruct (Z.eqb_spec (time.end_point_ this) 0); [lia|].
  cbn [fst]. fold ss se. unfold time.to_size_t.
  split; [|split; [reflexivity | lia]].
  f_equal. apply Z.mod_small.
  assert (2 ^ 63 < 2 ^ 64)%Z by reflexivity. lia.
Qed.

(** 0.9 s to 1.1 s: two tenths of a second elapsed, 1 returned. *)
Lemma get_time_offset_accuracy_witness :
  fst (time.get_time_offset {| time.start_point_ := 900000000%Z;
                               time.end_point_ := 1100000000%Z |}) = inr 1%Z.
Proof.
  destruct (get_time_offset_accuracy {| time.start_point_ := 900000000%Z;
                                        time.end_point_ := 1100000000%Z |})
    as (v & Hv & -> & _); [reflexivity | discriminate | reflexivity |].
  exact Hv.
Defined.

(** With the end a whole second or more before the start (the two setters
    called in the wrong order), the negative difference comes back as a
    [std::size_t]: 2^64 less the number of seconds, never a small number. *)
Theorem get_time_offset_wraps (this : time.monitoring) :
  (0 < time.end_point_ this)%Z ->
  (time.start_point_ this < 2 ^ 63)%Z ->
  (time.seconds_count (time.end_point_ this)
   < time.seconds_count (time.start_point_ this))%Z ->
  exists v,
    fst (time.get_time_offset this) = inr v
    /\ v = (2 ^ 64 - (time.seconds_count (time.start_point_ this)
                      - time.seconds_count (time.end_point_ this)))%Z
    /\ (2 ^ 63 < v)%Z.
Proof.
  intros He Hs Hlt.
  destruct (seconds_count_bounds (time.end_point_ this)) as [Hbe Hpe]; [lia|].
  assert (Hs0 : (0 < time.start_point_ this)%Z).
  { destruct (Z.le_gt_cases (time.start_point_ this) 0) as [Hneg|]; [|assumption].
    exfalso. unfold time.seconds_count in Hlt at 2.
    pose proof (Z.quot_opp_l (- time.start_point_ this) 1000000000 ltac:(lia)) as Hq.
    rewrite Z.opp_involutive in Hq.
    pose proof (Z.quot_pos (- time.start_point_ this) 1000000000 ltac:(lia) ltac:(lia)).
    lia. }
  destruct (seconds_count_bounds (time.start_point_ this)) as [Hbs Hps]; [lia|].
  set (ss := time.seconds_count (time.start_point_ this)) in *.
  set (se := time.seconds_count (time.end_point_ this)) in *.
  exists (2 ^ 64 - (ss - se))%Z.
  unfold time.get_time_offset, time.time_type_default.
  destruct (Z.eqb_spec (time.start_point_ this) 0); [lia|].
  destruct (Z.eqb_spec (time.end_point_ this) 0); [lia|].
  cbn [fst]. fold ss se. unfold time.to_size_t.
  assert (H63 : (2 ^ 63 = 9223372036854775808)%Z) by reflexivity.
  assert (H64 : (2 ^ 64 = 18446744073709551616)%Z) by reflexivity.
  split; [|split; [reflexivity | lia]].
  f_equal. symmetry. apply (Z.mod_unique_pos _ _ (-1)); lia.
Qed.

(** The end point set at 1 s, the start point at 3 s. *)
Lemma get_time_offset_wraps_witness :
  fst (time.get_time_offset {| time.start_point_ := 3000000000%Z;
                               time.end_point_ := 1000000000%Z |})
  = inr 18446744073709551614%Z.
Proof.
  destruct (get_time_offset_wraps {| time.start_point_ := 3000000000%Z;
                                     time.end_point_ := 1000000000%Z |})
    as (v & Hv & -> & _); [reflexivity | reflexivity | reflexivity |].
  exact Hv.
Defined.

(** * The table a render leaves *)

(** The later tools.hpp and console_tools.hpp: after a listing of n
    entries the table holds the tokens "1" ... "n" and no other, the token
    of the k-th entry mapped to its kind and its name; what the table held
    before plays no part. [print_filesystem] lists the string it is
    given, the loop of console_tools.hpp the generic-format string of its
    path. *)
Theorem render_numbers_the_listing (fs : filesystem) (p : path)
    (entries : list directory_entry) :
  (fs_directory_iterator fs p = Some entries ->
   forall s, exists s',
      Part000.print_filesystem fs p s = Val tt s'
      /\ forall tok v,
           Part000.dirs_ (self s') !! tok = Some v <->
           exists (k : nat) (entry : directory_entry),
             entries !! k = Some entry
             /\ tok = to_string (1 + Z.of_nat k)
             /\ v = (entry_is_directory entry, filename (entry_path entry)))
  /\ (fs_directory_iterator fs (generic_string p) = Some entries ->
      forall s, exists s' dirs,
        Part001.render fs p s = Val dirs s'
        /\ forall tok v,
             dirs !! tok = Some v <->
             exists (k : nat) (entry : directory_entry),
               entries !! k = Some entry
               /\ tok = to_string (1 + Z.of_nat k)
               /\ v = (entry_is_directory entry, filename (entry_path entry))).
Proof.
  split; intros Hls s.
  - destruct (Part000_print_filesystem_rebuilds fs p entries s Hls) as (s' & Hrun & Hd & _).
    exists s'. split; [exact Hrun|]. intros tok v. rewrite Hd.
    apply token_table_from_lookup.
  - destruct (Part001_render_rebuilds fs p entries s Hls) as (s' & Hrun & _).
    exists s', (token_table entries). split; [exact Hrun|]. intros tok v.
    apply token_table_from_lookup.
Qed.

(** On the sample tree: /home/user, second entry. *)
Lemma render_numbers_the_listing_witness :
  exists s', Part000.print_filesystem Samples.home "/home/user"
               (start Part000.monitoring_default) = Val tt s'
             /\ Part000.dirs_ (self s') !! "2" = Some (true, "docs").
Proof.
  destruct (proj1 (render_numbers_the_listing Samples.home "/home/user" _) eq_refl
              (start Part000.monitoring_default)) as (s' & Hrun & Htable).
  exists s'. split; [exact Hrun|]. apply Htable.
  exists 1%nat, {| entry_path := "/home/user/docs"; entry_is_directory := true |}.
  repeat split.
Defined.

(** src/tools.hpp: after a listing the table holds the tokens of the
    listing, mapped to its entries, and besides them every token it held
    before that the listing did not number again. *)
Theorem tools_render_keeps_old_tokens (fs : filesystem) (p : path)
    (entries : list directory_entry) (s : state Tools.monitoring) :
  fs_directory_iterator fs p = Some entries ->
  exists s',
    Tools.print_filesystem fs p s = Val tt s'
    /\ forall tok,
         Tools.dirs_ (self s') !! tok
         = match token_table entries !! tok with
           | Some v => Some v
           | None => Tools.dirs_ (self s) !! tok
           end.
Proof.
  intros Hls.
  destruct (Tools_print_filesystem_accumulates fs p entries s Hls) as (s' & Hrun & Hd & _).
  exists s'. split; [exact Hrun|]. intros tok. rewrite Hd, lookup_union.
  now destruct (token_table entries !! tok), (Tools.dirs_ (self s) !! tok).
Qed.

(** On the sample tree: docs listed after /home/user; "1" is remapped,
    "3" is the old locked.bin. *)
Lemma tools_render_keeps_old_tokens_witness :
  let s1 := final (Tools.print_filesystem Samples.home "/home/user"
                     (start Tools.monitoring_default)) in
  exists s', Tools.print_filesystem Samples.home "/home/user/docs" s1 = Val tt s'
             /\ Tools.dirs_ (self s') !! "1" = Some (false, "readme.md")
             /\ Tools.dirs_ (self s') !! "3" = Some (false, "locked.bin").
Proof.
  intros s1.
  destruct (tools_render_keeps_old_tokens Samples.home "/home/user/docs" _ s1 eq_refl)
    as (s' & Hrun & Htable).
  exists s'. split; [exact Hrun|]. rewrite !Htable. split; reflexivity.
Defined.

(** No listing numbers an entry "0", "b", "c" or "d": in the later
    tools.hpp and in console_tools.hpp the table of a render has no key
    that the menu uses, so every entry stays reachable by its token.
    [print_filesystem] lists the string it is given, the loop of
    console_tools.hpp the generic-format string of its path. *)
Theorem menu_tokens_are_not_listed (fs : filesystem) (p : path)
    (entries : list directory_entry) (tok : string) :
  reserved tok = true ->
  (fs_directory_iterator fs p = Some entries ->
   forall s, exists s',
      Part000.print_filesystem fs p s = Val tt s'
      /\ Part000.dirs_ (self s') !! tok = None)
  /\ (fs_directory_iterator fs (generic_string p) = Some entries ->
      forall s, exists s' dirs,
        Part001.render fs p s = Val dirs s' /\ dirs !! tok = None).
Proof.
  intros Hres.
  assert (Hnone : token_table entries !! tok = None).
  { destruct (token_table entries !! tok) eqn:Htok; [|reflexivity].
    rewrite (listed_token_not_reserved entries tok) in Hres; [discriminate|].
    rewrite Htok. eauto. }
  split; intros Hls s.
  - destruct (Part000_print_filesystem_rebuilds fs p entries s Hls) as (s' & Hrun & Hd & _).
    exists s'. split; [exact Hrun|]. now rewrite Hd.
  - destruct (Part001_render_rebuilds fs p entries s Hls) as (s' & Hrun & _).
    exists s', (token_table entries). split; [exact Hrun | exact Hnone].
Qed.

(** On the sample tree: "b" is no key. *)
Lemma menu_tokens_are_not_listed_witness :
  exists s' dirs, Part001.render Samples.home "/home/user" (start tt) = Val dirs s'
                  /\ dirs !! "b" = None.
Proof.
  exact (proj2 (menu_tokens_are_not_listed Samples.home "/home/user" _ "b" eq_refl)
           eq_refl (start tt)).
Defined.
